(** * LaunchLens: the statistical inference core

    A shallow embedding of the A/B readout ([ab_readout.py]), the CUPED
    readout ([cuped.py]), the SRM check ([srm_guardrails.py]) and the
    ship/hold rule of [generate_report.py].

    Number model.  Integers are [Z]; [len] is a [nat].  Floats are modelled
    at three levels, chosen by what a statement depends on.

    - Exact.  A Python or NumPy float is a real number or NaN ([float64]).
      Data fetched from the warehouse is finite.  Python-level [/] raises
      [ZeroDivisionError] and [math.sqrt] raises [ValueError] on a negative
      argument; NumPy-level division never raises.  Rounding and infinities
      are not modelled: the quotients by zero that the comparators and the
      CUPED adjuster form under NumPy on finite data are all 0/0 (mean,
      variance and covariance of too-short arrays), which is NaN.  This
      level serves the comparators, the readout and the SRM check, whose
      results differ from the code's by rounding only.

    - Binary64.  The CUPED lines of [cuped.py] over primitive IEEE-754
      doubles ([B64]), operation for operation.  This level serves the
      guard [var_x > 0], which rounding decides: the computed variance of a
      column of equal values need not be zero.

    - Rounded.  The CUPED lines with every float operation followed by a
      rounding [rnd] ([Rounded]), of which the statements assume only that
      it is monotone and keeps 0 and 1; values stay in the finite range.

    Library code (scipy.stats distributions, NumPy's reductions, Python's
    float formatting and parsing) is not part of the repository; it enters
    through the classes [Stats], [NumPy] and [PyText].  At the exact level
    the order in which NumPy adds does not matter and the sum is written
    out. *)

From Stdlib Require Import Floats.
From Stdlib Require Import String Ascii.
From Stdlib Require Import Reals Lra Lia ZArith List Bool Arith.
Import ListNotations.

Open Scope R_scope.

(* ================================================================== *)
(** * Python values, exceptions and floats                             *)
(* ================================================================== *)

Inductive exception : Type :=
| ValueError (msg : string)
| ZeroDivisionError (msg : string)
| IndexError (msg : string).

Inductive result (A : Type) : Type :=
| Ok (a : A)
| Raise (e : exception).

Arguments Ok {A} a.
Arguments Raise {A} e.

Definition bind {A B : Type} (m : result A) (k : A -> result B) : result B :=
  match m with
  | Ok a => k a
  | Raise e => Raise e
  end.

Notation "x <- m ;; k" := (bind m (fun x => k))
  (at level 61, m at next level, right associativity).

(** A float at the exact level: a real number or NaN.  Nothing rounds
    here; where rounding decides which branch the code takes, the statements
    are made on [B64] or [Rounded] instead. *)
Inductive float64 : Type :=
| Fin (r : R)
| NaN.

Definition Rgtb (x y : R) : bool := if Rlt_dec y x then true else false.
Definition Rltb' (x y : R) : bool := if Rlt_dec x y then true else false.
Definition Reqb' (x y : R) : bool := if Req_dec_T x y then true else false.

Module F.

Definition add (x y : float64) : float64 :=
  match x, y with Fin a, Fin b => Fin (a + b) | _, _ => NaN end.

Definition sub (x y : float64) : float64 :=
  match x, y with Fin a, Fin b => Fin (a - b) | _, _ => NaN end.

Definition mul (x y : float64) : float64 :=
  match x, y with Fin a, Fin b => Fin (a * b) | _, _ => NaN end.

(** [x ** 2] *)
Definition sqr (x : float64) : float64 := mul x x.

Definition abs (x : float64) : float64 :=
  match x with Fin a => Fin (Rabs a) | NaN => NaN end.

(** Comparisons: any comparison with NaN is [False]. *)
Definition gt (x y : float64) : bool :=
  match x, y with Fin a, Fin b => Rgtb a b | _, _ => false end.

Definition lt (x y : float64) : bool :=
  match x, y with Fin a, Fin b => Rltb' a b | _, _ => false end.

Definition eq (x y : float64) : bool :=
  match x, y with Fin a, Fin b => Reqb' a b | _, _ => false end.

(** A library function of a real argument applied to a float. *)
Definition lift (f : R -> R) (x : float64) : float64 :=
  match x with Fin a => Fin (f a) | NaN => NaN end.

(** Python's [x / y] on floats (and on ints, which yields a float). *)
Definition py_div (x y : float64) : result float64 :=
  match y with
  | Fin b =>
      if Reqb' b 0 then Raise (ZeroDivisionError "division by zero")
      else match x with Fin a => Ok (Fin (a / b)) | NaN => Ok NaN end
  | NaN => Ok NaN
  end.

(** NumPy's [x / y]: it never raises, and 0/0 is NaN.  A nonzero numerator
    over zero is an infinity in NumPy; infinities are not modelled and the
    quotient is NaN here.  The programs form such a quotient only in
    [srm_test] with an expected share of 0 or 1, outside its contract. *)
Definition np_div (x y : float64) : float64 :=
  match x, y with
  | Fin a, Fin b => if Reqb' b 0 then NaN else Fin (a / b)
  | _, _ => NaN
  end.

(** [math.sqrt] *)
Definition math_sqrt (x : float64) : result float64 :=
  match x with
  | Fin a =>
      if Rltb' a 0 then Raise (ValueError "math domain error")
      else Ok (Fin (sqrt a))
  | NaN => Ok NaN
  end.

Definition of_Z (z : Z) : float64 := Fin (IZR z).
Definition of_nat (n : nat) : float64 := Fin (INR n).

End F.

Declare Scope pyfloat_scope.
Delimit Scope pyfloat_scope with fl.
Infix "+" := F.add : pyfloat_scope.
Infix "-" := F.sub : pyfloat_scope.
Infix "*" := F.mul : pyfloat_scope.

(** ** NumPy reductions over one-dimensional float arrays, exact: the mean
    of equal values is that value and their variance is 0, which the
    computed ones need not be. *)

Definition ndarray := list float64.

Definition to_numpy (l : list R) : ndarray := map Fin l.

Definition np_sum (a : ndarray) : float64 := fold_right F.add (Fin 0) a.

(** [np.mean(a)]: the sum over the number of elements. *)
Definition np_mean (a : ndarray) : float64 :=
  F.np_div (np_sum a) (F.of_nat (length a)).

(** [np.var(a, ddof=1)]: squared deviations over [max(n - 1, 0)]. *)
Definition np_var_ddof1 (a : ndarray) : float64 :=
  let m := np_mean a in
  F.np_div (np_sum (map (fun v => F.sqr (v - m)%fl) a))
           (F.of_nat (length a - 1)).

(** [np.cov(y, x, ddof=1)[0, 1]] *)
Definition np_cov01_ddof1 (y x : ndarray) : float64 :=
  let my := np_mean y in
  let mx := np_mean x in
  F.np_div
    (np_sum (map (fun p => ((fst p - my) * (snd p - mx))%fl) (combine y x)))
    (F.of_nat (length y - 1)).

(** ** External library code *)

(** scipy.stats: the distribution functions the programs call. *)
Class Stats : Type := {
  (** [stats.norm.ppf(q)] *)
  norm_ppf : R -> R;
  (** [stats.norm.cdf(x)] *)
  norm_cdf : R -> R;
  (** [stats.t.ppf(q, df)] *)
  t_ppf : R -> R -> R;
  (** the p-value of [stats.ttest_ind(b, a, equal_var=False, nan_policy="omit")] *)
  ttest_ind_welch_pvalue : ndarray -> ndarray -> float64;
  (** [stats.chi2.sf(x, df)] *)
  chi2_sf : R -> nat -> R
}.

(** NumPy's reductions over an array of floats of type [A]: [np.add.reduce]
    (the sum behind [np.sum], [np.mean] and [np.var]) and the inner product
    behind [np.dot].  Both are library code: the order in which the elements
    are added is NumPy's choice by length and memory layout (left to right
    on fewer than eight elements, in blocks beyond), and the inner product
    is the linear-algebra library's. *)
Class NumPy (A : Type) : Type := {
  add_reduce : list A -> A;
  np_dot : list A -> list A -> A
}.

(** Python's float formatting ([format(x, spec)]), [str(x)] and [float(s)]. *)
Class PyText : Type := {
  format_float : string -> float64 -> string;
  str_of_float : float64 -> string;
  float_of_str : string -> result float64
}.

(* ================================================================== *)
(** * experimentation/ab_readout.py                                    *)
(* ================================================================== *)

Module AbReadout.

Record MetricResult : Type := {
  metric : string;
  control : float64;
  treatment : float64;
  abs_diff : float64;
  rel_diff : float64;
  ci_low : float64;
  ci_high : float64;
  p_value : float64
}.

Section Comparators.
Context {S : Stats}.

Definition ztest_result : Type :=
  (float64 * float64 * float64 * (float64 * float64) * float64)%type.

Definition _two_proportion_ztest (x1 n1 x2 n2 : Z) : result ztest_result :=
  if ((n1 =? 0)%Z || (n2 =? 0)%Z)%bool then
    Ok (Fin 0, Fin 0, Fin 0, (Fin 0, Fin 0), Fin 1)
  else
    p1 <- F.py_div (F.of_Z x1) (F.of_Z n1) ;;
    p2 <- F.py_div (F.of_Z x2) (F.of_Z n2) ;;
    let diff := (p2 - p1)%fl in
    q1 <- F.py_div (p1 * (Fin 1 - p1))%fl (F.of_Z n1) ;;
    q2 <- F.py_div (p2 * (Fin 1 - p2))%fl (F.of_Z n2) ;;
    se_ci <- F.math_sqrt (q1 + q2)%fl ;;
    let z := Fin (norm_ppf 0.975) in
    let ci_low := (diff - z * se_ci)%fl in
    let ci_high := (diff + z * se_ci)%fl in
    p_pool <- F.py_div (F.of_Z (x1 + x2)) (F.of_Z (n1 + n2)) ;;
    r1 <- F.py_div (Fin 1) (F.of_Z n1) ;;
    r2 <- F.py_div (Fin 1) (F.of_Z n2) ;;
    se_pooled <- F.math_sqrt (p_pool * (Fin 1 - p_pool) * (r1 + r2))%fl ;;
    p_value <-
      (if F.eq se_pooled (Fin 0) then Ok (Fin 1)
       else
         z_stat <- F.py_div diff se_pooled ;;
         Ok (Fin 2 * (Fin 1 - F.lift norm_cdf (F.abs z_stat)))%fl) ;;
    Ok (p1, p2, diff, (ci_low, ci_high), p_value).

Definition ttest_result : Type :=
  (float64 * (float64 * float64) * float64)%type.

Definition _two_sample_ttest (a b : ndarray) : result ttest_result :=
  if ((length a <? 2)%nat || (length b <? 2)%nat)%bool then
    Ok (Fin 0, (Fin 0, Fin 0), Fin 1)
  else
    let diff := (np_mean b - np_mean a)%fl in
    let p_value := ttest_ind_welch_pvalue b a in
    let va := np_var_ddof1 a in
    let vb := np_var_ddof1 b in
    let na := length a in
    let nb := length b in
    se <- F.math_sqrt (F.np_div va (F.of_nat na) + F.np_div vb (F.of_nat nb))%fl ;;
    if F.eq se (Fin 0) then Ok (diff, (diff, diff), Fin 1)
    else
      let df_num := F.sqr (F.np_div va (F.of_nat na) + F.np_div vb (F.of_nat nb))%fl in
      let df_den :=
        (F.np_div (F.sqr va) (F.of_nat (na * na * (na - 1)))
         + F.np_div (F.sqr vb) (F.of_nat (nb * nb * (nb - 1))))%fl in
      let df :=
        if F.gt df_den (Fin 0) then F.np_div df_num df_den
        else F.of_nat (na + nb - 2) in
      let tcrit := F.lift (t_ppf 0.975) df in
      let ci_low := (diff - tcrit * se)%fl in
      let ci_high := (diff + tcrit * se)%fl in
      Ok (diff, (ci_low, ci_high), p_value).

End Comparators.


(** ** The warehouse table read by [run_readout] *)

Record fact_session : Type := {
  experiment_id : string;
  is_experiment_period : bool;
  variant : string;
  has_impression : Z;
  has_click : Z;
  has_add_to_cart : Z;
  has_purchase : Z;
  revenue : R
}.

(** [SELECT ... FROM fact_sessions WHERE experiment_id = ? AND
    is_experiment_period = TRUE] *)
Definition fetchdf (fact_sessions : list fact_session) (eid : string)
  : list fact_session :=
  filter (fun r => (String.eqb (experiment_id r) eid
                    && is_experiment_period r)%bool) fact_sessions.

Definition with_variant (v : string) (df : list fact_session)
  : list fact_session :=
  filter (fun r => String.eqb (variant r) v) df.

(** [int(df[col].sum())] *)
Definition col_sum (col : fact_session -> Z) (df : list fact_session) : Z :=
  fold_right Z.add 0%Z (map col df).

(** A cell of a pandas frame of dtype object: a float or a str. *)
Inductive pyobj : Type :=
| PyFloat (x : float64)
| PyStr (s : string).

Record display_row : Type := {
  d_metric : string;
  d_control : pyobj;
  d_treatment : pyobj;
  d_abs_diff : pyobj;
  d_rel_diff : pyobj;
  d_ci_low : pyobj;
  d_ci_high : pyobj;
  d_p_value : pyobj
}.

Definition numeric_cells (r : display_row) : list pyobj :=
  [d_control r; d_treatment r; d_abs_diff r; d_rel_diff r;
   d_ci_low r; d_ci_high r; d_p_value r].

(** [sort_values("metric")]: rows ordered by the metric string. *)
Fixpoint insert_row (r : display_row) (l : list display_row)
  : list display_row :=
  match l with
  | [] => [r]
  | h :: t =>
      if String.leb (d_metric r) (d_metric h) then r :: h :: t
      else h :: insert_row r t
  end.

Definition sort_values_metric (l : list display_row) : list display_row :=
  fold_right insert_row [] l.

Definition no_data_message : string :=
  "No experiment-period sessions found. Check experiment_id or data.".

Section Readout.
Context {S : Stats} {T : PyText}.

(** [(diff / p1) if p1 > 0 else np.nan] *)
Definition rel_diff_of (diff p1 : float64) : result float64 :=
  if F.gt p1 (Fin 0) then F.py_div diff p1 else Ok NaN.

(** One of the four proportion blocks: the test's tuple packed into a
    [MetricResult]. *)
Definition proportion_metric (name : string) (r : ztest_result)
  : result MetricResult :=
  let '(p1, p2, diff, (lo, hi), pval) := r in
  rd <- rel_diff_of diff p1 ;;
  Ok {| metric := name; control := p1; treatment := p2; abs_diff := diff;
        rel_diff := rd; ci_low := lo; ci_high := hi; p_value := pval |}.

(** The formatting helpers of the display loop. *)
Definition pct (x : float64) : string :=
  (format_float ".3f" (x * Fin 100)%fl ++ "%")%string.
Definition rel (x : float64) : string :=
  (format_float ".2f" (x * Fin 100)%fl ++ "%")%string.
Definition num (x : float64) : string := format_float ".4f" x.

(** [pd.notnull] *)
Definition notnull (x : float64) : bool :=
  match x with Fin _ => true | NaN => false end.

Definition is_proportion_metric (m : string) : bool :=
  (String.eqb m "purchase_rate_per_session" || String.eqb m "ctr"
   || String.eqb m "atc_rate" || String.eqb m "purchase_rate_given_atc")%bool.

Definition format_row (r : MetricResult) : display_row :=
  let m := metric r in
  let rel_cell :=
    if notnull (rel_diff r) then PyStr (rel (rel_diff r)) else PyStr "NA" in
  if is_proportion_metric m then
    {| d_metric := m;
       d_control := PyStr (pct (control r));
       d_treatment := PyStr (pct (treatment r));
       d_abs_diff := PyStr (pct (abs_diff r));
       d_rel_diff := rel_cell;
       d_ci_low := PyStr (pct (ci_low r));
       d_ci_high := PyStr (pct (ci_high r));
       d_p_value := PyStr (num (p_value r)) |}
  else
    {| d_metric := m;
       d_control := PyStr (num (control r));
       d_treatment := PyStr (num (treatment r));
       d_abs_diff := PyStr (num (abs_diff r));
       d_rel_diff := rel_cell;
       d_ci_low := PyStr (num (ci_low r));
       d_ci_high := PyStr (num (ci_high r));
       d_p_value := PyStr (num (p_value r)) |}.

(** The five [MetricResult] records, in the insertion order of [out]. *)
Definition metric_results (df : list fact_session)
  : result (list MetricResult) :=
  let c := with_variant "control" df in
  let t := with_variant "treatment" df in
  let n_c := Z.of_nat (length c) in
  let n_t := Z.of_nat (length t) in
  let x_c := col_sum has_purchase c in
  let x_t := col_sum has_purchase t in
  r1 <- _two_proportion_ztest x_c n_c x_t n_t ;;
  m1 <- proportion_metric "purchase_rate_per_session" r1 ;;
  let imp_c := col_sum has_impression c in
  let imp_t := col_sum has_impression t in
  let clk_c := col_sum has_click c in
  let clk_t := col_sum has_click t in
  r2 <- _two_proportion_ztest clk_c imp_c clk_t imp_t ;;
  m2 <- proportion_metric "ctr" r2 ;;
  let atc_c := col_sum has_add_to_cart c in
  let atc_t := col_sum has_add_to_cart t in
  r3 <- _two_proportion_ztest atc_c clk_c atc_t clk_t ;;
  m3 <- proportion_metric "atc_rate" r3 ;;
  r4 <- _two_proportion_ztest x_c atc_c x_t atc_t ;;
  m4 <- proportion_metric "purchase_rate_given_atc" r4 ;;
  let rev_c := to_numpy (map revenue c) in
  let rev_t := to_numpy (map revenue t) in
  r5 <- _two_sample_ttest rev_c rev_t ;;
  let '(diff, (lo, hi), pval) := r5 in
  rd <- rel_diff_of diff (np_mean rev_c) ;;
  let m5 :=
    {| metric := "revenue_per_session"; control := np_mean rev_c;
       treatment := np_mean rev_t; abs_diff := diff; rel_diff := rd;
       ci_low := lo; ci_high := hi; p_value := pval |} in
  Ok [m1; m2; m3; m4; m5].

Definition run_readout (fact_sessions : list fact_session) (eid : string)
  : result (list display_row) :=
  let df := fetchdf fact_sessions eid in
  match df with
  | [] => Raise (ValueError no_data_message)
  | _ :: _ =>
      res <- metric_results df ;;
      Ok (sort_values_metric (map format_row res))
  end.

End Readout.

End AbReadout.

(* ================================================================== *)
(** * experimentation/generate_report.py: the decision rule           *)
(* ================================================================== *)

Module GenerateReport.
Import AbReadout.

(** [s.replace("%", "")] *)
Fixpoint strip_percent (s : string) : string :=
  match s with
  | EmptyString => EmptyString
  | String ch rest =>
      if Ascii.eqb ch "%"%char then strip_percent rest
      else String ch (strip_percent rest)
  end.

Section Decision.
Context {S : Stats} {T : PyText}.

(** [float(obj)] *)
Definition py_float (o : pyobj) : result float64 :=
  match o with
  | PyFloat x => Ok x
  | PyStr s => float_of_str s
  end.

(** [str(obj)] *)
Definition py_str (o : pyobj) : string :=
  match o with
  | PyFloat x => str_of_float x
  | PyStr s => s
  end.

(** [readout[readout["metric"] == name].iloc[0]] *)
Definition primary_row (readout : list display_row) : result display_row :=
  match filter (fun r => String.eqb (d_metric r) "purchase_rate_per_session")
               readout with
  | r :: _ => Ok r
  | [] => Raise (IndexError "single positional indexer is out-of-bounds")
  end.

(** Lines 135-138: the ship flag computed from the readout table. *)
Definition ship_decision (readout : list display_row) : result bool :=
  primary <- primary_row readout ;;
  pval_primary <- py_float (d_p_value primary) ;;
  parsed <- float_of_str (strip_percent (py_str (d_abs_diff primary))) ;;
  abs_diff_num <- F.py_div parsed (Fin 100) ;;
  Ok (F.lt pval_primary (Fin 0.05) && F.gt abs_diff_num (Fin 0))%bool.

(** Lines 132-138 of [main]: the readout, then the decision on it. *)
Definition readout_and_decide (fact_sessions : list fact_session)
    (eid : string) : result (list display_row * bool) :=
  readout <- run_readout fact_sessions eid ;;
  ship <- ship_decision readout ;;
  Ok (readout, ship).

End Decision.

End GenerateReport.

(* ================================================================== *)
(** * experimentation/cuped.py                                         *)
(* ================================================================== *)

Module Cuped.

Section Welch.
Context {S : Stats}.

Definition welch_ttest_ci (a b : ndarray)
  : result (float64 * float64 * float64 * float64) :=
  let diff := (np_mean b - np_mean a)%fl in
  let va := np_var_ddof1 a in
  let vb := np_var_ddof1 b in
  let na := length a in
  let nb := length b in
  se <- F.math_sqrt (F.np_div va (F.of_nat na) + F.np_div vb (F.of_nat nb))%fl ;;
  if (F.eq se (Fin 0) || (na <? 2)%nat || (nb <? 2)%nat)%bool then
    Ok (diff, diff, diff, Fin 1)
  else
    let df_num := F.sqr (F.np_div va (F.of_nat na) + F.np_div vb (F.of_nat nb))%fl in
    let df_den :=
      (F.np_div (F.sqr va) (F.of_nat (na * na * (na - 1)))
       + F.np_div (F.sqr vb) (F.of_nat (nb * nb * (nb - 1))))%fl in
    let df :=
      if F.gt df_den (Fin 0) then F.np_div df_num df_den
      else F.of_nat (na + nb - 2) in
    let tcrit := F.lift (t_ppf 0.975) df in
    let ci_low := (diff - tcrit * se)%fl in
    let ci_high := (diff + tcrit * se)%fl in
    let p_value := ttest_ind_welch_pvalue b a in
    Ok (diff, ci_low, ci_high, p_value).

End Welch.

(** A row of the user-level frame fetched by [main]. *)
Record user_row : Type := {
  variant : string;
  y_rev : R;
  x_pre_rev : R
}.

Record cuped_report : Type := {
  theta : float64;
  y_cuped : ndarray;
  var_red : float64;
  raw_stats : float64 * float64 * float64 * float64;
  cup_stats : float64 * float64 * float64 * float64
}.

Section Main.
Context {S : Stats}.

(** [theta = cov_yx / var_x if var_x > 0 else 0.0] *)
Definition cuped_theta (y x : ndarray) : result float64 :=
  let cov_yx := np_cov01_ddof1 y x in
  let var_x := np_var_ddof1 x in
  if F.gt var_x (Fin 0) then F.py_div cov_yx var_x else Ok (Fin 0).

(** [y - theta * (x - x_mean)], element by element *)
Definition cuped_adjusted (theta : float64) (y x : ndarray) : ndarray :=
  let x_mean := np_mean x in
  map (fun p => (fst p - theta * (snd p - x_mean))%fl) (combine y x).

(** [(1 - var_cup / var_raw) if var_raw > 0 else 0.0] *)
Definition variance_reduction (y y_cuped : ndarray) : result float64 :=
  let var_raw := np_var_ddof1 y in
  let var_cup := np_var_ddof1 y_cuped in
  if F.gt var_raw (Fin 0) then
    q <- F.py_div var_cup var_raw ;; Ok (Fin 1 - q)%fl
  else Ok (Fin 0).

(** The [y_rev] and [y_rev_cuped] columns of the rows of one variant. *)
Definition split (v : string) (df : list user_row) (col : ndarray)
  : ndarray :=
  map snd (filter (fun p => String.eqb (variant (fst p)) v)
                  (combine df col)).

Definition main (df : list user_row) : result cuped_report :=
  let x := to_numpy (map x_pre_rev df) in
  let y := to_numpy (map y_rev df) in
  th <- cuped_theta y x ;;
  let yc := cuped_adjusted th y x in
  let raw_c := split "control" df y in
  let raw_t := split "treatment" df y in
  let cup_c := split "control" df yc in
  let cup_t := split "treatment" df yc in
  raw <- welch_ttest_ci raw_c raw_t ;;
  cup <- welch_ttest_ci cup_c cup_t ;;
  vr <- variance_reduction y yc ;;
  Ok {| theta := th; y_cuped := yc; var_red := vr;
        raw_stats := raw; cup_stats := cup |}.

End Main.

End Cuped.

(* ================================================================== *)
(** * experimentation/cuped.py in binary64                             *)
(* ================================================================== *)

(** The CUPED lines of [main] over IEEE-754 doubles, one primitive
    operation for each operation NumPy or Python performs; the reductions
    are those of a [NumPy float]. *)
Module B64.

Definition ndarray := list float.

(** Python's [a == b] on floats: false against NaN, true between 0.0 and
    -0.0. *)
Definition float_eq (a b : float) : Prop := PrimFloat.eqb a b = true.

(** [float(n)] of a length. *)
Definition of_nat (n : nat) : float :=
  PrimFloat.of_uint63 (Uint63.of_Z (Z.of_nat n)).

(** Python's [x / y] on floats. *)
Definition py_div (x y : float) : result float :=
  if PrimFloat.eqb y 0 then Raise (ZeroDivisionError "division by zero")
  else Ok (x / y)%float.

(** The reductions with the elements taken from left to right, starting at
    0.0: the order NumPy follows on fewer than eight elements. *)
Definition left_to_right : NumPy float :=
  {| add_reduce := fun a => fold_left PrimFloat.add a 0%float;
     np_dot := fun a b =>
       fold_left PrimFloat.add
                 (map (fun p => (fst p * snd p)%float) (combine a b)) 0%float |}.

Section Lines.
Context {N : NumPy float}.

(** [np.mean(a)]: the sum over the number of elements. *)
Definition np_mean (a : ndarray) : float :=
  (add_reduce a / of_nat (length a))%float.

(** [np.var(a, ddof=1)]: the deviations from the mean, squared, summed and
    divided by [max(n - 1, 0)]. *)
Definition np_var_ddof1 (a : ndarray) : float :=
  let m := np_mean a in
  let x := map (fun v => (v - m)%float) a in
  (add_reduce (map (fun d => (d * d)%float) x) / of_nat (length a - 1))%float.

(** [np.cov(y, x, ddof=1)[0, 1]]: the inner product of the centred rows,
    times [1 / (n - 1)]. *)
Definition np_cov01_ddof1 (y x : ndarray) : float :=
  let my := np_mean y in
  let mx := np_mean x in
  (np_dot (map (fun v => (v - my)%float) y) (map (fun v => (v - mx)%float) x)
   * (1 / of_nat (length y - 1)))%float.

(** [theta = cov_yx / var_x if var_x > 0 else 0.0] *)
Definition cuped_theta (y x : ndarray) : result float :=
  let cov_yx := np_cov01_ddof1 y x in
  let var_x := np_var_ddof1 x in
  if PrimFloat.ltb 0 var_x then py_div cov_yx var_x else Ok 0%float.

(** [y - theta * (x - x_mean)], element by element *)
Definition cuped_adjusted (theta : float) (y x : ndarray) : ndarray :=
  let x_mean := np_mean x in
  map (fun p => (fst p - theta * (snd p - x_mean))%float) (combine y x).

(** [(1 - var_cup / var_raw) if var_raw > 0 else 0.0] *)
Definition variance_reduction (y y_cuped : ndarray) : result float :=
  let var_raw := np_var_ddof1 y in
  let var_cup := np_var_ddof1 y_cuped in
  if PrimFloat.ltb 0 var_raw then
    q <- py_div var_cup var_raw ;; Ok (1 - q)%float
  else Ok 0%float.

End Lines.

End B64.

(* ================================================================== *)
(** * experimentation/cuped.py under rounding                          *)
(* ================================================================== *)

(** The same lines with every float operation followed by a rounding
    [rnd]: the exact result of the operation is replaced by the float that
    stands for it.  Counts convert to floats exactly.  As in the exact
    model, a quotient by zero is NaN and infinities are not modelled.  The
    reductions are those of a [NumPy float64]. *)
Module Rounded.

Section Rounding.
Variable rnd : R -> R.

Definition add (x y : float64) : float64 :=
  match x, y with Fin a, Fin b => Fin (rnd (a + b)) | _, _ => NaN end.

Definition sub (x y : float64) : float64 :=
  match x, y with Fin a, Fin b => Fin (rnd (a - b)) | _, _ => NaN end.

Definition mul (x y : float64) : float64 :=
  match x, y with Fin a, Fin b => Fin (rnd (a * b)) | _, _ => NaN end.

(** Python's [x / y] on floats. *)
Definition py_div (x y : float64) : result float64 :=
  match y with
  | Fin b =>
      if Reqb' b 0 then Raise (ZeroDivisionError "division by zero")
      else match x with Fin a => Ok (Fin (rnd (a / b))) | NaN => Ok NaN end
  | NaN => Ok NaN
  end.

(** NumPy's [x / y]. *)
Definition np_div (x y : float64) : float64 :=
  match x, y with
  | Fin a, Fin b => if Reqb' b 0 then NaN else Fin (rnd (a / b))
  | _, _ => NaN
  end.

(** The reductions with the elements taken from left to right, starting at
    0.0, each addition and product rounded. *)
Definition left_to_right : NumPy float64 :=
  {| add_reduce := fun a => fold_left add a (Fin 0);
     np_dot := fun a b =>
       fold_left add (map (fun p => mul (fst p) (snd p)) (combine a b))
                 (Fin 0) |}.

Context {N : NumPy float64}.

Definition np_mean (a : ndarray) : float64 :=
  np_div (add_reduce a) (F.of_nat (length a)).

Definition np_var_ddof1 (a : ndarray) : float64 :=
  let m := np_mean a in
  let x := map (fun v => sub v m) a in
  np_div (add_reduce (map (fun d => mul d d) x)) (F.of_nat (length a - 1)).

Definition np_cov01_ddof1 (y x : ndarray) : float64 :=
  let my := np_mean y in
  let mx := np_mean x in
  mul (np_dot (map (fun v => sub v my) y) (map (fun v => sub v mx) x))
      (np_div (Fin 1) (F.of_nat (length y - 1))).

(** [theta = cov_yx / var_x if var_x > 0 else 0.0] *)
Definition cuped_theta (y x : ndarray) : result float64 :=
  let cov_yx := np_cov01_ddof1 y x in
  let var_x := np_var_ddof1 x in
  if F.gt var_x (Fin 0) then py_div cov_yx var_x else Ok (Fin 0).

(** [y - theta * (x - x_mean)], element by element *)
Definition cuped_adjusted (theta : float64) (y x : ndarray) : ndarray :=
  let x_mean := np_mean x in
  map (fun p => sub (fst p) (mul theta (sub (snd p) x_mean))) (combine y x).

(** [(1 - var_cup / var_raw) if var_raw > 0 else 0.0] *)
Definition variance_reduction (y y_cuped : ndarray) : result float64 :=
  let var_raw := np_var_ddof1 y in
  let var_cup := np_var_ddof1 y_cuped in
  if F.gt var_raw (Fin 0) then
    q <- py_div var_cup var_raw ;; Ok (sub (Fin 1) q)
  else Ok (Fin 0).

End Rounding.

End Rounded.

(* ================================================================== *)
(** * monitoring/srm_guardrails.py                                     *)
(* ================================================================== *)

Module SrmGuardrails.

Record SRMResult : Type := {
  level : string;
  n_control : Z;
  n_treatment : Z;
  expected_share_treatment : float64;
  chi2 : float64;
  p_value : float64
}.

Section Srm.
Context {S : Stats}.

(** [stats.chisquare(f_obs, f_exp)]: Pearson's statistic
    [sum((f_obs - f_exp)**2 / f_exp)] and its upper tail under the
    chi-square law with [k - 1] degrees of freedom.  The library's check that
    both arrays have the same total always passes for [srm_test] over the
    reals, where total*(1-share) + total*share = total. *)
Definition chisquare (f_obs f_exp : ndarray) : float64 * float64 :=
  let terms :=
    map (fun p => F.np_div (F.sqr (fst p - snd p)%fl) (snd p))
        (combine f_obs f_exp) in
  let stat := np_sum terms in
  (stat, F.lift (fun x => chi2_sf x (length f_obs - 1)) stat).

Definition srm_test (n_control n_treatment : Z)
    (expected_share_treatment : float64) : SRMResult :=
  let total := (n_control + n_treatment)%Z in
  let exp_t := (F.of_Z total * expected_share_treatment)%fl in
  let exp_c := (F.of_Z total * (Fin 1 - expected_share_treatment))%fl in
  let observed := [F.of_Z n_control; F.of_Z n_treatment] in
  let expected := [exp_c; exp_t] in
  let '(chi2, p) := chisquare observed expected in
  {| level := "count";
     n_control := n_control;
     n_treatment := n_treatment;
     expected_share_treatment := expected_share_treatment;
     chi2 := chi2;
     p_value := p |}.

End Srm.

End SrmGuardrails.

(* ================================================================== *)
(** * Specification-side definitions                                   *)
(* ================================================================== *)

(** The formulas of the specification over the reals, to be compared with
    what the code computes. *)

Definition sum_R (l : list R) : R := fold_right Rplus 0 l.

Definition mean_R (l : list R) : R := sum_R l / INR (length l).

(** Unbiased sample variance (divisor n - 1). *)
Definition var_R (l : list R) : R :=
  sum_R (map (fun v => (v - mean_R l) * (v - mean_R l)) l) / INR (length l - 1).

(** Sample covariance (divisor n - 1). *)
Definition cov_R (y x : list R) : R :=
  sum_R (map (fun p => (fst p - mean_R y) * (snd p - mean_R x)) (combine y x))
  / INR (length y - 1).

Module ProportionSpec.

(** The argument of the square root of the unpooled standard error. *)
Definition se_ci_radicand (x1 n1 x2 n2 : Z) : R :=
  let p1 := IZR x1 / IZR n1 in
  let p2 := IZR x2 / IZR n2 in
  p1 * (1 - p1) / IZR n1 + p2 * (1 - p2) / IZR n2.

(** The argument of the square root of the pooled standard error. *)
Definition se_pooled_radicand (x1 n1 x2 n2 : Z) : R :=
  let p_pool := IZR (x1 + x2) / IZR (n1 + n2) in
  p_pool * (1 - p_pool) * (1 / IZR n1 + 1 / IZR n2).

Definition diff (x1 n1 x2 n2 : Z) : R := IZR x2 / IZR n2 - IZR x1 / IZR n1.

Definition se_ci (x1 n1 x2 n2 : Z) : R := sqrt (se_ci_radicand x1 n1 x2 n2).

Definition se_pooled (x1 n1 x2 n2 : Z) : R :=
  sqrt (se_pooled_radicand x1 n1 x2 n2).

(** [1.0] when the pooled standard error vanishes, else
    [2 (1 - Phi(|diff / se_pooled|))]. *)
Definition p_value {S : Stats} (x1 n1 x2 n2 : Z) : R :=
  if Req_dec_T (se_pooled x1 n1 x2 n2) 0 then 1
  else 2 * (1 - norm_cdf (Rabs (diff x1 n1 x2 n2 / se_pooled x1 n1 x2 n2))).

End ProportionSpec.

Module WelchSpec.

(** Standard error [sqrt(va/na + vb/nb)]. *)
Definition se (a b : list R) : R :=
  sqrt (var_R a / INR (length a) + var_R b / INR (length b)).

(** Welch-Satterthwaite degrees of freedom, with the fallback [na + nb - 2]
    when the denominator is not positive. *)
Definition df (va : R) (na : nat) (vb : R) (nb : nat) : R :=
  let den :=
    (va * va) / (INR na * INR na * (INR na - 1))
    + (vb * vb) / (INR nb * INR nb * (INR nb - 1)) in
  if Rlt_dec 0 den
  then ((va / INR na + vb / INR nb) * (va / INR na + vb / INR nb)) / den
  else INR na + INR nb - 2.

End WelchSpec.

Module ReadoutSpec.

(** The record of a proportion metric, from the counts it is computed on:
    successes [x1], [x2] over denominators [n1], [n2] for control and
    treatment.  The rates are x/n, the interval is the unpooled one, the
    p-value the pooled one, and the relative difference is diff/p1 when
    p1 > 0.  With an empty denominator the record is all zeros with
    p-value 1. *)
Definition proportion_row {S : Stats} (name : string) (x1 n1 x2 n2 : Z)
  : AbReadout.MetricResult :=
  if ((n1 =? 0)%Z || (n2 =? 0)%Z)%bool then
    {| AbReadout.metric := name;
       AbReadout.control := Fin 0;
       AbReadout.treatment := Fin 0;
       AbReadout.abs_diff := Fin 0;
       AbReadout.rel_diff := NaN;
       AbReadout.ci_low := Fin 0;
       AbReadout.ci_high := Fin 0;
       AbReadout.p_value := Fin 1 |}
  else
    let p1 := IZR x1 / IZR n1 in
    let p2 := IZR x2 / IZR n2 in
    let d := ProportionSpec.diff x1 n1 x2 n2 in
    let half := norm_ppf 0.975 * ProportionSpec.se_ci x1 n1 x2 n2 in
    {| AbReadout.metric := name;
       AbReadout.control := Fin p1;
       AbReadout.treatment := Fin p2;
       AbReadout.abs_diff := Fin d;
       AbReadout.rel_diff := if Rlt_dec 0 p1 then Fin (d / p1) else NaN;
       AbReadout.ci_low := Fin (d - half);
       AbReadout.ci_high := Fin (d + half);
       AbReadout.p_value := Fin (ProportionSpec.p_value x1 n1 x2 n2) |}.

End ReadoutSpec.

(** The adjusted sequence of the specification: y - theta (x - mean(x)). *)
Definition adjusted_R (th : R) (ly lx : list R) : list R :=
  map (fun p => fst p - th * (snd p - mean_R lx)) (combine ly lx).

(* ================================================================== *)
(** * Example data                                                     *)
(* ================================================================== *)

(** ** A small warehouse: two control and two treatment sessions of the
    experiment, and one pre-period session that the query leaves out. *)

Definition session (eid : string) (period : bool) (v : string)
    (imp clk atc pur : Z) (rev : R) : AbReadout.fact_session :=
  {| AbReadout.experiment_id := eid;
     AbReadout.is_experiment_period := period;
     AbReadout.variant := v;
     AbReadout.has_impression := imp;
     AbReadout.has_click := clk;
     AbReadout.has_add_to_cart := atc;
     AbReadout.has_purchase := pur;
     AbReadout.revenue := rev |}.

Definition sample_sessions : list AbReadout.fact_session :=
  [ session "exp_checkout_v1" false "control" 1 1 0 0 0;
    session "exp_checkout_v1" true "control" 1 1 1 1 20;
    session "exp_checkout_v1" true "control" 1 0 0 0 0;
    session "exp_checkout_v1" true "treatment" 1 1 1 1 30;
    session "exp_checkout_v1" true "treatment" 1 1 0 0 0 ].

Definition pre_period_only : list AbReadout.fact_session :=
  [ session "exp_checkout_v1" false "control" 1 1 0 0 0;
    session "exp_other" true "treatment" 1 0 0 0 0 ].

(** Sessions with a click but no impression in each arm: clicks exceed
    impressions on both sides. *)
Definition excess_click_sessions : list AbReadout.fact_session :=
  [ session "exp_checkout_v1" true "control" 1 1 0 0 0;
    session "exp_checkout_v1" true "control" 0 1 0 0 0;
    session "exp_checkout_v1" true "treatment" 1 1 1 1 30;
    session "exp_checkout_v1" true "treatment" 0 1 0 0 0 ].

(** Sessions of the control arm only. *)
Definition control_only_sessions : list AbReadout.fact_session :=
  [ session "exp_checkout_v1" true "control" 1 1 1 1 20;
    session "exp_checkout_v1" true "control" 1 0 0 0 0 ].

(** A user-level frame for the CUPED readout, two users per arm. *)
Definition sample_users : list Cuped.user_row :=
  [ {| Cuped.variant := "control"; Cuped.y_rev := 10; Cuped.x_pre_rev := 8 |};
    {| Cuped.variant := "control"; Cuped.y_rev := 0; Cuped.x_pre_rev := 2 |};
    {| Cuped.variant := "treatment"; Cuped.y_rev := 30; Cuped.x_pre_rev := 20 |};
    {| Cuped.variant := "treatment"; Cuped.y_rev := 4; Cuped.x_pre_rev := 2 |} ].

(** A warehouse where the funnel narrows at every stage.  Control has 3
    sessions, 2 impressions, 1 click, 1 add-to-cart and 1 purchase;
    treatment has 4 sessions, 3 impressions, 2 clicks, 1 add-to-cart and 1
    purchase. *)
Definition funnel_sessions : list AbReadout.fact_session :=
  [ session "exp_checkout_v1" true "control" 1 1 1 1 20;
    session "exp_checkout_v1" true "control" 1 0 0 0 0;
    session "exp_checkout_v1" true "control" 0 0 0 0 0;
    session "exp_checkout_v1" true "treatment" 1 1 1 1 30;
    session "exp_checkout_v1" true "treatment" 1 1 0 0 0;
    session "exp_checkout_v1" true "treatment" 1 0 0 0 0;
    session "exp_checkout_v1" true "treatment" 0 0 0 0 0 ].

(** Binary64 columns: revenues 1, 2 and 4; a covariate stuck at 0.1 (the
    double nearest to it); a covariate stuck at 5. *)
Definition revenues : B64.ndarray := [1; 2; 4]%float.

Definition tenth : float := 0x1.999999999999ap-4%float.

Definition tenths : B64.ndarray := [tenth; tenth; tenth].

Definition fives : B64.ndarray := [5; 5; 5]%float.


(** An instance whose chi-square tail is the bound itself: it meets the tail
    hypothesis of the SRM theorem. *)
Definition tail_bound_stats : Stats :=
  {| norm_ppf := fun _ => 0;
     norm_cdf := fun _ => 1 / 2;
     t_ppf := fun _ _ => 0;
     ttest_ind_welch_pvalue := fun _ _ => Fin 1;
     chi2_sf := fun x _ => exp (- x / 2) |}.

(* ================================================================== *)
(** * monitoring/srm_guardrails.py: the SRM report of [main]           *)
(* ================================================================== *)

Module SrmReport.
Import SrmGuardrails.

(** A row of the frames [main] fetches: a variant and its count of users
    or of sessions. *)
Record count_row : Type := {
  cr_variant : string;
  cr_count : Z
}.

(** [get_count(df, col, label)]; the frame has the one count column. *)
Definition get_count (df : list count_row) (label : string) : Z :=
  match filter (fun r => String.eqb (cr_variant r) label) df with
  | [] => 0%Z
  | r :: _ => cr_count r
  end.

(** [x >= y] on floats: [False] when either side is NaN. *)
Definition float_ge (x y : float64) : bool :=
  match x, y with
  | Fin a, Fin b => if Rle_dec b a then true else false
  | _, _ => false
  end.

(** The FLAG line: "OK (no SRM)" when [p_value >= 0.01], else
    "SRM detected". *)
Definition flag_ok (r : SRMResult) : bool := float_ge (p_value r) (Fin 0.01).

Section Main.
Context {S : Stats}.

(** [srm_test(get_count(df, col, "control"), get_count(df, col, "treatment"),
    args.expected_treatment_share)] *)
Definition srm_of_counts (df : list count_row) (share : float64) : SRMResult :=
  srm_test (get_count df "control") (get_count df "treatment") share.

End Main.

End SrmReport.

(** A counts frame without a row for either arm. *)
Definition holdout_counts : list SrmReport.count_row :=
  [ {| SrmReport.cr_variant := "holdout"; SrmReport.cr_count := 5 |} ].

(* ================================================================== *)
(** * Further predicates used in statements                            *)
(* ================================================================== *)

(** A session whose funnel flags are 0 or 1 and nested: a purchase implies
    an add-to-cart, which implies a click, which implies an impression. *)
Definition funnel_consistent (r : AbReadout.fact_session) : Prop :=
  (0 <= AbReadout.has_purchase r <= AbReadout.has_add_to_cart r)%Z
  /\ (AbReadout.has_add_to_cart r <= AbReadout.has_click r)%Z
  /\ (AbReadout.has_click r <= AbReadout.has_impression r)%Z
  /\ (AbReadout.has_impression r <= 1)%Z.

(** Whether a string holds a percent sign. *)
Fixpoint has_percent (s : string) : bool :=
  match s with
  | EmptyString => false
  | String ch rest => (Ascii.eqb ch "%"%char || has_percent rest)%bool
  end.

(* ================================================================== *)
(** * Basic facts: comparisons, floats, reductions                     *)
(* ================================================================== *)

Lemma Reqb'_true (x y : R) : x = y -> Reqb' x y = true.
Proof. intros H. unfold Reqb'. destruct (Req_dec_T x y); congruence. Qed.

Lemma Reqb'_false (x y : R) : x <> y -> Reqb' x y = false.
Proof. intros H. unfold Reqb'. destruct (Req_dec_T x y); congruence. Qed.

Lemma Rltb'_true (x y : R) : x < y -> Rltb' x y = true.
Proof. intros H. unfold Rltb'. destruct (Rlt_dec x y); [reflexivity | contradiction]. Qed.

Lemma Rltb'_false (x y : R) : y <= x -> Rltb' x y = false.
Proof. intros H. unfold Rltb'. destruct (Rlt_dec x y); [lra | reflexivity]. Qed.

Lemma math_sqrt_nonneg (r : R) : 0 <= r -> F.math_sqrt (Fin r) = Ok (Fin (sqrt r)).
Proof. intros H. unfold F.math_sqrt. now rewrite Rltb'_false. Qed.

Lemma math_sqrt_neg (r : R) :
  r < 0 -> F.math_sqrt (Fin r) = Raise (ValueError "math domain error").
Proof. intros H. unfold F.math_sqrt. now rewrite Rltb'_true. Qed.

Lemma py_div_nonzero (a b : R) : b <> 0 -> F.py_div (Fin a) (Fin b) = Ok (Fin (a / b)).
Proof. intros H. unfold F.py_div. now rewrite Reqb'_false. Qed.

Lemma np_div_nonzero (a b : R) : b <> 0 -> F.np_div (Fin a) (Fin b) = Fin (a / b).
Proof. intros H. unfold F.np_div. now rewrite Reqb'_false. Qed.

Lemma np_div_zero (a : R) : F.np_div (Fin a) (Fin 0) = NaN.
Proof. unfold F.np_div. now rewrite Reqb'_true. Qed.

Lemma np_sum_to_numpy (l : list R) : np_sum (to_numpy l) = Fin (sum_R l).
Proof.
  induction l as [|v l IH]; simpl; [reflexivity|].
  unfold np_sum, to_numpy in IH. unfold np_sum, to_numpy. simpl.
  rewrite IH. reflexivity.
Qed.

Lemma to_numpy_length (l : list R) : length (to_numpy l) = length l.
Proof. apply length_map. Qed.

Lemma INR_pos_of_nonempty (n : nat) : (0 < n)%nat -> INR n <> 0.
Proof. intros H. apply not_0_INR. lia. Qed.

Lemma np_mean_to_numpy (l : list R) :
  l <> [] -> np_mean (to_numpy l) = Fin (mean_R l).
Proof.
  intros H. unfold np_mean, mean_R, F.of_nat.
  rewrite np_sum_to_numpy, to_numpy_length.
  apply np_div_nonzero, INR_pos_of_nonempty.
  destruct l; [congruence | simpl; lia].
Qed.

Lemma sq_dev_to_numpy (mu : R) (l : list R) :
  map (fun v => F.sqr (v - Fin mu)%fl) (to_numpy l)
  = to_numpy (map (fun v => (v - mu) * (v - mu)) l).
Proof. unfold to_numpy. rewrite !map_map. reflexivity. Qed.

Lemma np_var_to_numpy (l : list R) :
  (2 <= length l)%nat -> np_var_ddof1 (to_numpy l) = Fin (var_R l).
Proof.
  intros H. unfold np_var_ddof1, var_R.
  rewrite np_mean_to_numpy by (destruct l; [simpl in H; lia | congruence]).
  rewrite sq_dev_to_numpy, np_sum_to_numpy, to_numpy_length.
  apply np_div_nonzero, INR_pos_of_nonempty. lia.
Qed.

Lemma np_div_by_zero (x : float64) : F.np_div x (Fin 0) = NaN.
Proof. destruct x; [apply np_div_zero | reflexivity]. Qed.

(** The variance of an array of fewer than two elements is NaN, whatever the
    elements are. *)
Lemma np_var_ddof1_short (a : ndarray) :
  (length a < 2)%nat -> np_var_ddof1 a = NaN.
Proof.
  intros H. unfold np_var_ddof1, F.of_nat.
  destruct a as [|v [|w a]]; [| |simpl in H; lia]; simpl (length _ - 1)%nat;
    simpl INR; apply np_div_by_zero.
Qed.

Lemma sum_R_squares_nonneg (mu : R) (l : list R) :
  0 <= sum_R (map (fun v => (v - mu) * (v - mu)) l).
Proof.
  unfold sum_R. induction l as [|v l IH]; simpl; [lra|].
  pose proof (Rle_0_sqr (v - mu)) as Hs. unfold Rsqr in Hs. lra.
Qed.

Lemma var_R_nonneg (l : list R) : 0 <= var_R l.
Proof.
  unfold var_R.
  destruct (Nat.eq_dec (length l - 1) 0) as [E|E].
  - rewrite E. simpl. unfold Rdiv. rewrite Rinv_0. lra.
  - apply Rmult_le_pos; [apply sum_R_squares_nonneg|].
    apply Rlt_le, Rinv_0_lt_compat, lt_0_INR. lia.
Qed.

(* ================================================================== *)
(** * The proportion comparator                                        *)
(* ================================================================== *)

Section ProportionFacts.
Context {S : Stats}.
Import AbReadout ProportionSpec.

Lemma IZR_nonzero (n : Z) : n <> 0%Z -> IZR n <> 0.
Proof. intros H E. apply H. now apply eq_IZR. Qed.

Lemma ratio_in_unit (x n : Z) :
  (0 <= x <= n)%Z -> (0 < n)%Z -> 0 <= IZR x / IZR n <= 1.
Proof.
  intros [H0 H1] Hn.
  apply IZR_le in H0. apply IZR_le in H1. apply IZR_lt in Hn.
  split.
  - apply Rmult_le_pos; [exact H0 | apply Rlt_le, Rinv_0_lt_compat, Hn].
  - apply Rmult_le_reg_r with (r := IZR n); [exact Hn|].
    unfold Rdiv. rewrite Rmult_assoc, Rinv_l by lra. lra.
Qed.

Lemma bernoulli_over_n_nonneg (p n : R) : 0 <= p <= 1 -> 0 < n -> 0 <= p * (1 - p) / n.
Proof.
  intros Hp Hn. apply Rmult_le_pos; [nra|].
  apply Rlt_le, Rinv_0_lt_compat, Hn.
Qed.

Lemma se_ci_radicand_nonneg (x1 n1 x2 n2 : Z) :
  (0 < n1)%Z -> (0 < n2)%Z -> (0 <= x1 <= n1)%Z -> (0 <= x2 <= n2)%Z ->
  0 <= se_ci_radicand x1 n1 x2 n2.
Proof.
  intros Hn1 Hn2 Hx1 Hx2. unfold se_ci_radicand.
  pose proof (ratio_in_unit x1 n1 Hx1 Hn1).
  pose proof (ratio_in_unit x2 n2 Hx2 Hn2).
  apply IZR_lt in Hn1. apply IZR_lt in Hn2.
  pose proof (bernoulli_over_n_nonneg (IZR x1 / IZR n1) (IZR n1)).
  pose proof (bernoulli_over_n_nonneg (IZR x2 / IZR n2) (IZR n2)).
  cbv zeta. lra.
Qed.

Lemma se_pooled_radicand_nonneg (x1 n1 x2 n2 : Z) :
  (0 < n1)%Z -> (0 < n2)%Z -> (0 <= x1 <= n1)%Z -> (0 <= x2 <= n2)%Z ->
  0 <= se_pooled_radicand x1 n1 x2 n2.
Proof.
  intros Hn1 Hn2 Hx1 Hx2. unfold se_pooled_radicand.
  assert (Hp : 0 <= IZR (x1 + x2) / IZR (n1 + n2) <= 1)
    by (apply ratio_in_unit; lia).
  apply IZR_lt in Hn1. apply IZR_lt in Hn2.
  assert (0 < 1 / IZR n1) by (apply Rdiv_lt_0_compat; lra).
  assert (0 < 1 / IZR n2) by (apply Rdiv_lt_0_compat; lra).
  cbv zeta. apply Rmult_le_pos; nra.
Qed.

(** With nonzero divisors the comparator reduces to its two square roots
    and the p-value branch: these are the arguments [math.sqrt] receives. *)
Lemma ztest_sqrt_calls (x1 n1 x2 n2 : Z) :
  n1 <> 0%Z -> n2 <> 0%Z -> (n1 + n2)%Z <> 0%Z ->
  _two_proportion_ztest x1 n1 x2 n2 =
    (se_ci <- F.math_sqrt (Fin (se_ci_radicand x1 n1 x2 n2)) ;;
     se_pooled <- F.math_sqrt (Fin (se_pooled_radicand x1 n1 x2 n2)) ;;
     p_value <-
       (if F.eq se_pooled (Fin 0) then Ok (Fin 1)
        else
          z_stat <- F.py_div (Fin (diff x1 n1 x2 n2)) se_pooled ;;
          Ok (Fin 2 * (Fin 1 - F.lift norm_cdf (F.abs z_stat)))%fl) ;;
     Ok (Fin (IZR x1 / IZR n1), Fin (IZR x2 / IZR n2),
         Fin (diff x1 n1 x2 n2),
         ((Fin (diff x1 n1 x2 n2) - Fin (norm_ppf 0.975) * se_ci)%fl,
          (Fin (diff x1 n1 x2 n2) + Fin (norm_ppf 0.975) * se_ci)%fl),
         p_value)).
Proof.
  intros H1 H2 H12. unfold _two_proportion_ztest.
  replace ((n1 =? 0)%Z || (n2 =? 0)%Z)%bool with false
    by (symmetry; apply orb_false_intro; apply Z.eqb_neq; assumption).
  unfold F.of_Z.
  rewrite !py_div_nonzero by (apply IZR_nonzero; assumption).
  cbn [bind F.sub F.mul F.add].
  rewrite !py_div_nonzero by (apply IZR_nonzero; assumption).
  cbn [bind F.sub F.mul F.add].
  reflexivity.
Qed.

End ProportionFacts.

Section ProportionClaims.
Context {S : Stats}.
Import AbReadout ProportionSpec.

Lemma ztest_degenerate (x1 n1 x2 n2 : Z) :
  n1 = 0%Z \/ n2 = 0%Z ->
  _two_proportion_ztest x1 n1 x2 n2
  = Ok (Fin 0, Fin 0, Fin 0, (Fin 0, Fin 0), Fin 1).
Proof.
  intros H. unfold _two_proportion_ztest.
  replace ((n1 =? 0)%Z || (n2 =? 0)%Z)%bool with true; [reflexivity|].
  symmetry. apply orb_true_iff.
  destruct H as [H|H]; [left | right]; now apply Z.eqb_eq.
Qed.

(** On valid counts with nonzero denominators the comparator returns, and
    its p-value is the pooled-SE one. *)
Lemma ztest_valid (x1 n1 x2 n2 : Z) :
  (0 < n1)%Z -> (0 < n2)%Z -> (0 <= x1 <= n1)%Z -> (0 <= x2 <= n2)%Z ->
  _two_proportion_ztest x1 n1 x2 n2
  = Ok (Fin (IZR x1 / IZR n1), Fin (IZR x2 / IZR n2), Fin (diff x1 n1 x2 n2),
        (Fin (diff x1 n1 x2 n2 - norm_ppf 0.975 * se_ci x1 n1 x2 n2),
         Fin (diff x1 n1 x2 n2 + norm_ppf 0.975 * se_ci x1 n1 x2 n2)),
        Fin (p_value x1 n1 x2 n2)).
Proof.
  intros Hn1 Hn2 Hx1 Hx2.
  rewrite ztest_sqrt_calls by lia.
  rewrite !math_sqrt_nonneg
    by (apply se_ci_radicand_nonneg || apply se_pooled_radicand_nonneg;
        assumption).
  cbn [bind F.eq].
  unfold p_value, se_pooled, se_ci.
  destruct (Req_dec_T (sqrt (se_pooled_radicand x1 n1 x2 n2)) 0) as [E|E].
  - rewrite Reqb'_true by exact E. reflexivity.
  - rewrite Reqb'_false by exact E. rewrite py_div_nonzero by exact E.
    reflexivity.
Qed.

(** C4. The proportion comparator returns all zeros and p-value 1 when a
    denominator is zero; otherwise p1 = x1/n1, p2 = x2/n2, diff = p2 - p1,
    the interval diff -/+ z0.975 * sqrt(p1(1-p1)/n1 + p2(1-p2)/n2), and a
    p-value from the pooled standard error: 1 when it vanishes (in
    particular when x1 = x2 = 0), else 2(1 - Phi(|diff/se_pooled|)). *)
Theorem two_proportion_ztest_formulas (x1 n1 x2 n2 : Z) :
  (0 <= x1 <= n1)%Z -> (0 <= x2 <= n2)%Z ->
  (n1 = 0%Z \/ n2 = 0%Z ->
     _two_proportion_ztest x1 n1 x2 n2
     = Ok (Fin 0, Fin 0, Fin 0, (Fin 0, Fin 0), Fin 1))
  /\
  (n1 <> 0%Z -> n2 <> 0%Z ->
     let p1 := IZR x1 / IZR n1 in
     let p2 := IZR x2 / IZR n2 in
     let diff := p2 - p1 in
     let se_ci := sqrt (p1 * (1 - p1) / IZR n1 + p2 * (1 - p2) / IZR n2) in
     let z := norm_ppf 0.975 in
     let p_pool := IZR (x1 + x2) / IZR (n1 + n2) in
     let se_pooled :=
       sqrt (p_pool * (1 - p_pool) * (1 / IZR n1 + 1 / IZR n2)) in
     exists pv : R,
       _two_proportion_ztest x1 n1 x2 n2
       = Ok (Fin p1, Fin p2, Fin diff,
             (Fin (diff - z * se_ci), Fin (diff + z * se_ci)), Fin pv)
       /\ (se_pooled = 0 -> pv = 1)
       /\ (se_pooled <> 0 -> pv = 2 * (1 - norm_cdf (Rabs (diff / se_pooled))))
       /\ (x1 = 0%Z -> x2 = 0%Z -> se_pooled = 0 /\ pv = 1)).
Proof.
  intros Hx1 Hx2. split; [apply ztest_degenerate|].
  intros Hn1 Hn2. cbv zeta.
  exists (p_value x1 n1 x2 n2).
  split; [apply ztest_valid; lia|].
  assert (Hdef : p_value x1 n1 x2 n2
                 = if Req_dec_T (se_pooled x1 n1 x2 n2) 0 then 1
                   else 2 * (1 - norm_cdf (Rabs (diff x1 n1 x2 n2
                                                  / se_pooled x1 n1 x2 n2))))
    by reflexivity.
  change (sqrt (IZR (x1 + x2) / IZR (n1 + n2)
                * (1 - IZR (x1 + x2) / IZR (n1 + n2))
                * (1 / IZR n1 + 1 / IZR n2)))
    with (se_pooled x1 n1 x2 n2).
  change (IZR x2 / IZR n2 - IZR x1 / IZR n1) with (diff x1 n1 x2 n2).
  destruct (Req_dec_T (se_pooled x1 n1 x2 n2) 0) as [E|E].
  - split; [intros; assumption|]. split; [intros; contradiction|].
    intros; split; assumption.
  - split; [intros; contradiction|]. split; [intros; assumption|].
    intros -> ->. exfalso. apply E.
    unfold se_pooled, se_pooled_radicand. simpl (0 + 0)%Z.
    replace (0 / IZR (n1 + n2) * (1 - 0 / IZR (n1 + n2))
             * (1 / IZR n1 + 1 / IZR n2)) with 0
      by (unfold Rdiv; ring).
    apply sqrt_0.
Qed.

(** C10. On valid counts with positive denominators the comparator
    evaluates without arithmetic fault: both square-root arguments are
    nonnegative, the divisors n1, n2, n1+n2 are nonzero, and a tuple is
    returned.  The bound x <= n is needed: at x1 = 2, n1 = 1 the unpooled
    radicand is negative and [math.sqrt] raises. *)
Theorem two_proportion_ztest_no_fault :
  (forall x1 n1 x2 n2 : Z,
      (0 < n1)%Z -> (0 < n2)%Z -> (0 <= x1 <= n1)%Z -> (0 <= x2 <= n2)%Z ->
      IZR n1 <> 0 /\ IZR n2 <> 0 /\ IZR (n1 + n2) <> 0
      /\ 0 <= se_ci_radicand x1 n1 x2 n2
      /\ 0 <= se_pooled_radicand x1 n1 x2 n2
      /\ _two_proportion_ztest x1 n1 x2 n2
         = (se_ci <- F.math_sqrt (Fin (se_ci_radicand x1 n1 x2 n2)) ;;
            se_pooled <- F.math_sqrt (Fin (se_pooled_radicand x1 n1 x2 n2)) ;;
            p_value <-
              (if F.eq se_pooled (Fin 0) then Ok (Fin 1)
               else
                 z_stat <- F.py_div (Fin (diff x1 n1 x2 n2)) se_pooled ;;
                 Ok (Fin 2 * (Fin 1 - F.lift norm_cdf (F.abs z_stat)))%fl) ;;
            Ok (Fin (IZR x1 / IZR n1), Fin (IZR x2 / IZR n2),
                Fin (diff x1 n1 x2 n2),
                ((Fin (diff x1 n1 x2 n2) - Fin (norm_ppf 0.975) * se_ci)%fl,
                 (Fin (diff x1 n1 x2 n2) + Fin (norm_ppf 0.975) * se_ci)%fl),
                p_value))
      /\ exists r, _two_proportion_ztest x1 n1 x2 n2 = Ok r)
  /\
  (exists x1 n1 x2 n2 : Z,
      (0 < n1)%Z /\ (0 < n2)%Z /\ (n1 < x1)%Z /\ (0 <= x2 <= n2)%Z
      /\ se_ci_radicand x1 n1 x2 n2 < 0
      /\ _two_proportion_ztest x1 n1 x2 n2
         = Raise (ValueError "math domain error")).
Proof.
  split.
  - intros x1 n1 x2 n2 Hn1 Hn2 Hx1 Hx2.
    repeat split; try (apply IZR_nonzero; lia).
    + now apply se_ci_radicand_nonneg.
    + now apply se_pooled_radicand_nonneg.
    + apply ztest_sqrt_calls; lia.
    + eexists. apply ztest_valid; assumption.
  - exists 2%Z, 1%Z, 0%Z, 1%Z.
    assert (Hneg : se_ci_radicand 2 1 0 1 < 0)
      by (unfold se_ci_radicand; cbv zeta; lra).
    repeat split; try lia; [exact Hneg|].
    rewrite ztest_sqrt_calls by lia.
    rewrite math_sqrt_neg by exact Hneg. reflexivity.
Qed.

End ProportionClaims.

(** The formulas at 100/1000 purchases in control against 120/1000 in
    treatment. *)
Lemma two_proportion_ztest_formulas_witness :
  exists x1 n1 x2 n2 : Z,
    (0 <= x1 <= n1)%Z /\ (0 <= x2 <= n2)%Z /\ n1 <> 0%Z /\ n2 <> 0%Z /\
    forall S : Stats, exists pv : R,
      AbReadout._two_proportion_ztest x1 n1 x2 n2
      = Ok (Fin (IZR x1 / IZR n1), Fin (IZR x2 / IZR n2),
            Fin (IZR x2 / IZR n2 - IZR x1 / IZR n1),
            (Fin (IZR x2 / IZR n2 - IZR x1 / IZR n1
                  - norm_ppf 0.975
                    * sqrt (IZR x1 / IZR n1 * (1 - IZR x1 / IZR n1) / IZR n1
                            + IZR x2 / IZR n2 * (1 - IZR x2 / IZR n2) / IZR n2)),
             Fin (IZR x2 / IZR n2 - IZR x1 / IZR n1
                  + norm_ppf 0.975
                    * sqrt (IZR x1 / IZR n1 * (1 - IZR x1 / IZR n1) / IZR n1
                            + IZR x2 / IZR n2 * (1 - IZR x2 / IZR n2) / IZR n2))),
            Fin pv).
Proof.
  exists 100%Z, 1000%Z, 120%Z, 1000%Z.
  assert (H1 : (0 <= 100 <= 1000)%Z) by lia.
  assert (H2 : (0 <= 120 <= 1000)%Z) by lia.
  assert (N : (1000 <> 0)%Z) by lia.
  repeat split; try lia.
  intros S.
  destruct (proj2 (two_proportion_ztest_formulas 100 1000 120 1000 H1 H2) N N)
    as (pv & E & _).
  exists pv. exact E.
Defined.

(** No fault at 100/1000 against 120/1000. *)
Lemma two_proportion_ztest_no_fault_witness :
  (0 < 1000)%Z /\ (0 <= 100 <= 1000)%Z /\ (0 <= 120 <= 1000)%Z /\
  forall S : Stats,
    0 <= ProportionSpec.se_ci_radicand 100 1000 120 1000
    /\ 0 <= ProportionSpec.se_pooled_radicand 100 1000 120 1000
    /\ exists r, AbReadout._two_proportion_ztest 100 1000 120 1000 = Ok r.
Proof.
  assert (P : (0 < 1000)%Z) by lia.
  assert (H1 : (0 <= 100 <= 1000)%Z) by lia.
  assert (H2 : (0 <= 120 <= 1000)%Z) by lia.
  repeat split; try lia;
    destruct (proj1 two_proportion_ztest_no_fault 100%Z 1000%Z 120%Z 1000%Z
                     P P H1 H2)
      as (_ & _ & _ & A & B & _ & C); assumption.
Defined.

(* ================================================================== *)
(** * The Welch mean comparator, at both call sites                    *)
(* ================================================================== *)

Lemma np_div_NaN_l (y : float64) : F.np_div NaN y = NaN.
Proof. reflexivity. Qed.

Lemma add_NaN_r (x : float64) : (x + NaN)%fl = NaN.
Proof. destruct x; reflexivity. Qed.

Lemma short_sample_radicand (a b : ndarray) :
  (length a < 2 \/ length b < 2)%nat ->
  (F.np_div (np_var_ddof1 a) (F.of_nat (length a))
   + F.np_div (np_var_ddof1 b) (F.of_nat (length b)))%fl = NaN.
Proof.
  intros [H|H]; rewrite (np_var_ddof1_short _ H).
  - reflexivity.
  - rewrite np_div_NaN_l. apply add_NaN_r.
Qed.

Lemma INR_cube_like (n : nat) :
  (2 <= n)%nat -> INR (n * n * (n - 1)) = INR n * INR n * (INR n - 1).
Proof. intros H. rewrite !mult_INR, minus_INR by lia. simpl. ring. Qed.

Lemma INR_cube_like_pos (n : nat) : (2 <= n)%nat -> 0 < INR n * INR n * (INR n - 1).
Proof.
  intros H. assert (2 <= INR n) by (apply (le_INR 2); exact H).
  apply Rmult_lt_0_compat; [apply Rmult_lt_0_compat|]; lra.
Qed.

(** The degrees of freedom both call sites compute are the
    Welch-Satterthwaite ones. *)
Lemma welch_df_float (va vb : R) (na nb : nat) :
  (2 <= na)%nat -> (2 <= nb)%nat ->
  (let df_num := F.sqr (Fin (va / INR na + vb / INR nb)) in
   let df_den :=
     (F.np_div (F.sqr (Fin va)) (F.of_nat (na * na * (na - 1)))
      + F.np_div (F.sqr (Fin vb)) (F.of_nat (nb * nb * (nb - 1))))%fl in
   if F.gt df_den (Fin 0) then F.np_div df_num df_den
   else F.of_nat (na + nb - 2))
  = Fin (WelchSpec.df va na vb nb).
Proof.
  intros Ha Hb. cbv zeta. unfold F.of_nat, WelchSpec.df.
  rewrite !INR_cube_like by assumption.
  pose proof (INR_cube_like_pos na Ha) as Pa.
  pose proof (INR_cube_like_pos nb Hb) as Pb.
  cbn [F.sqr F.mul].
  rewrite !np_div_nonzero
    by first [ lra | apply INR_pos_of_nonempty; lia ].
  cbn [F.sqr F.mul F.add F.gt].
  unfold Rgtb.
  destruct (Rlt_dec 0 _) as [D|D].
  - rewrite np_div_nonzero by lra. reflexivity.
  - f_equal. rewrite minus_INR, plus_INR by lia. simpl. ring.
Qed.

Section WelchClaims.
Context {S : Stats}.

Lemma two_sample_ttest_short (a b : ndarray) :
  (length a < 2 \/ length b < 2)%nat ->
  AbReadout._two_sample_ttest a b = Ok (Fin 0, (Fin 0, Fin 0), Fin 1).
Proof.
  intros H. unfold AbReadout._two_sample_ttest.
  replace ((length a <? 2)%nat || (length b <? 2)%nat)%bool with true;
    [reflexivity|].
  symmetry. apply orb_true_iff.
  destruct H as [H|H]; [left | right]; now apply Nat.ltb_lt.
Qed.

Lemma welch_ttest_ci_short (a b : ndarray) :
  (length a < 2 \/ length b < 2)%nat ->
  Cuped.welch_ttest_ci a b
  = Ok ((np_mean b - np_mean a)%fl, (np_mean b - np_mean a)%fl,
        (np_mean b - np_mean a)%fl, Fin 1).
Proof.
  intros H. unfold Cuped.welch_ttest_ci.
  rewrite (short_sample_radicand a b H). cbn [F.math_sqrt bind F.eq orb].
  replace ((length a <? 2)%nat || (length b <? 2)%nat)%bool with true;
    [reflexivity|].
  symmetry. apply orb_true_iff.
  destruct H as [H|H]; [left | right]; now apply Nat.ltb_lt.
Qed.

(** C3 (as the code has it). With a sample of fewer than two observations,
    [_two_sample_ttest] returns diff = 0, ci = (0, 0), p = 1, while
    [welch_ttest_ci] returns diff = mean(b) - mean(a), the interval
    collapsed to (diff, diff), and p = 1. *)
Theorem short_sample_results (a b : ndarray) :
  (length a < 2 \/ length b < 2)%nat ->
  AbReadout._two_sample_ttest a b = Ok (Fin 0, (Fin 0, Fin 0), Fin 1)
  /\ Cuped.welch_ttest_ci a b
     = Ok ((np_mean b - np_mean a)%fl, (np_mean b - np_mean a)%fl,
           (np_mean b - np_mean a)%fl, Fin 1).
Proof.
  intros H. split;
    [apply two_sample_ttest_short | apply welch_ttest_ci_short]; exact H.
Qed.

Lemma welch_radicand_finite (la lb : list R) :
  (2 <= length la)%nat -> (2 <= length lb)%nat ->
  (F.np_div (np_var_ddof1 (to_numpy la)) (F.of_nat (length (to_numpy la)))
   + F.np_div (np_var_ddof1 (to_numpy lb)) (F.of_nat (length (to_numpy lb))))%fl
  = Fin (var_R la / INR (length la) + var_R lb / INR (length lb)).
Proof.
  intros Ha Hb. rewrite !np_var_to_numpy, !to_numpy_length by assumption.
  unfold F.of_nat.
  rewrite !np_div_nonzero by (apply INR_pos_of_nonempty; lia).
  reflexivity.
Qed.

Lemma welch_radicand_nonneg (la lb : list R) :
  (2 <= length la)%nat -> (2 <= length lb)%nat ->
  0 <= var_R la / INR (length la) + var_R lb / INR (length lb).
Proof.
  intros Ha Hb.
  pose proof (var_R_nonneg la). pose proof (var_R_nonneg lb).
  assert (0 < INR (length la)) by (apply lt_0_INR; lia).
  assert (0 < INR (length lb)) by (apply lt_0_INR; lia).
  assert (0 <= var_R la / INR (length la))
    by (apply Rmult_le_pos; [assumption | apply Rlt_le, Rinv_0_lt_compat; assumption]).
  assert (0 <= var_R lb / INR (length lb))
    by (apply Rmult_le_pos; [assumption | apply Rlt_le, Rinv_0_lt_compat; assumption]).
  lra.
Qed.

Lemma np_mean_diff_finite (la lb : list R) :
  (2 <= length la)%nat -> (2 <= length lb)%nat ->
  (np_mean (to_numpy lb) - np_mean (to_numpy la))%fl
  = Fin (mean_R lb - mean_R la).
Proof.
  intros Ha Hb.
  rewrite !np_mean_to_numpy
    by (intro E; subst; simpl in *; lia).
  reflexivity.
Qed.

(** C6. For two samples of at least two observations each and positive
    standard error, [_two_sample_ttest] and [welch_ttest_ci] return the
    same difference, interval bounds and p-value, both with the
    Welch-Satterthwaite degrees of freedom (fallback na + nb - 2). *)
Theorem welch_call_sites_agree (la lb : list R) :
  (2 <= length la)%nat -> (2 <= length lb)%nat ->
  0 < WelchSpec.se la lb ->
  let a := to_numpy la in
  let b := to_numpy lb in
  let diff := mean_R lb - mean_R la in
  let se := sqrt (var_R la / INR (length la) + var_R lb / INR (length lb)) in
  let df := WelchSpec.df (var_R la) (length la) (var_R lb) (length lb) in
  let tcrit := t_ppf 0.975 df in
  AbReadout._two_sample_ttest a b
  = Ok (Fin diff, (Fin (diff - tcrit * se), Fin (diff + tcrit * se)),
        ttest_ind_welch_pvalue b a)
  /\ Cuped.welch_ttest_ci a b
     = Ok (Fin diff, Fin (diff - tcrit * se), Fin (diff + tcrit * se),
           ttest_ind_welch_pvalue b a).
Proof.
  intros Ha Hb Hse. cbv zeta.
  assert (Hne : sqrt (var_R la / INR (length la) + var_R lb / INR (length lb)) <> 0)
    by (unfold WelchSpec.se in Hse; lra).
  pose proof (welch_df_float (var_R la) (var_R lb) (length la) (length lb) Ha Hb)
    as Hdf.
  cbv zeta in Hdf.
  split.
  - unfold AbReadout._two_sample_ttest.
    replace ((length (to_numpy la) <? 2)%nat || (length (to_numpy lb) <? 2)%nat)%bool
      with false
      by (symmetry; rewrite !to_numpy_length; apply orb_false_intro;
          apply Nat.ltb_ge; assumption).
    cbv zeta.
    rewrite welch_radicand_finite by assumption.
    rewrite math_sqrt_nonneg by (apply welch_radicand_nonneg; assumption).
    cbn [bind F.eq]. rewrite Reqb'_false by exact Hne.
    rewrite np_mean_diff_finite by assumption.
    rewrite !np_var_to_numpy, !to_numpy_length by assumption.
    rewrite Hdf. reflexivity.
  - unfold Cuped.welch_ttest_ci.
    cbv zeta.
    rewrite welch_radicand_finite by assumption.
    rewrite math_sqrt_nonneg by (apply welch_radicand_nonneg; assumption).
    cbn [bind F.eq]. rewrite Reqb'_false by exact Hne.
    replace ((length (to_numpy la) <? 2)%nat) with false
      by (symmetry; rewrite to_numpy_length; apply Nat.ltb_ge; assumption).
    replace ((length (to_numpy lb) <? 2)%nat) with false
      by (symmetry; rewrite to_numpy_length; apply Nat.ltb_ge; assumption).
    cbn [orb].
    rewrite np_mean_diff_finite by assumption.
    rewrite !np_var_to_numpy, !to_numpy_length by assumption.
    rewrite Hdf. reflexivity.
Qed.

End WelchClaims.

(** With a = [1] and b = [3, 5], [welch_ttest_ci] returns (3, 3, 3, 1), not
    (0, 0, 0, 1). *)
Lemma welch_ttest_ci_short_sample_counterexample :
  exists a b : ndarray,
    (length a < 2)%nat /\
    forall S : Stats,
      Cuped.welch_ttest_ci a b = Ok (Fin 3, Fin 3, Fin 3, Fin 1)
      /\ Cuped.welch_ttest_ci a b <> Ok (Fin 0, Fin 0, Fin 0, Fin 1).
Proof.
  exists [Fin 1], [Fin 3; Fin 5]. split; [simpl; lia|].
  intros S.
  assert (E : Cuped.welch_ttest_ci [Fin 1] [Fin 3; Fin 5]
              = Ok (Fin 3, Fin 3, Fin 3, Fin 1)).
  { rewrite welch_ttest_ci_short by (left; simpl; lia).
    change [Fin 3; Fin 5] with (to_numpy [3; 5]).
    change [Fin 1] with (to_numpy [1]).
    rewrite !np_mean_to_numpy by congruence.
    assert (D : mean_R [3; 5] - mean_R [1] = 3)
      by (unfold mean_R, sum_R; simpl; lra).
    cbn [F.sub]. rewrite D. reflexivity. }
  split; [exact E|].
  rewrite E. intros C. injection C as C. lra.
Qed.

(** The short-sample results at a = [1], b = [3, 5]. *)
Lemma short_sample_results_witness :
  exists a b : ndarray,
    (length a < 2 \/ length b < 2)%nat /\
    forall S : Stats,
      AbReadout._two_sample_ttest a b = Ok (Fin 0, (Fin 0, Fin 0), Fin 1)
      /\ Cuped.welch_ttest_ci a b
         = Ok ((np_mean b - np_mean a)%fl, (np_mean b - np_mean a)%fl,
               (np_mean b - np_mean a)%fl, Fin 1).
Proof.
  exists [Fin 1], [Fin 3; Fin 5].
  assert (H : (length [Fin 1] < 2 \/ length [Fin 3; Fin 5] < 2)%nat)
    by (left; simpl; lia).
  split; [exact H|].
  intros S. exact (short_sample_results [Fin 1] [Fin 3; Fin 5] H).
Defined.

(** The two call sites agree on a = [1, 3], b = [2, 6], where the standard
    error is sqrt 5. *)
Lemma welch_call_sites_agree_witness :
  (2 <= length [1; 3])%nat /\ (2 <= length [2; 6])%nat /\
  0 < WelchSpec.se [1; 3] [2; 6] /\
  forall S : Stats,
    exists r,
      AbReadout._two_sample_ttest (to_numpy [1; 3]) (to_numpy [2; 6])
      = Ok (fst (fst r), (snd (fst r), fst (snd r)), snd (snd r))
      /\ Cuped.welch_ttest_ci (to_numpy [1; 3]) (to_numpy [2; 6])
         = Ok (fst (fst r), snd (fst r), fst (snd r), snd (snd r)).
Proof.
  assert (Ha : (2 <= length [1; 3])%nat) by (simpl; lia).
  assert (Hb : (2 <= length [2; 6])%nat) by (simpl; lia).
  assert (Hse : 0 < WelchSpec.se [1; 3] [2; 6]).
  { unfold WelchSpec.se. apply sqrt_lt_R0.
    unfold var_R, mean_R, sum_R. simpl. lra. }
  repeat split; try assumption.
  intros S.
  destruct (welch_call_sites_agree [1; 3] [2; 6] Ha Hb Hse) as [E1 E2].
  eexists (_, _, (_, _)). cbn [fst snd]. split; [exact E1 | exact E2].
Defined.

(* ================================================================== *)
(** * The CUPED adjuster in exact arithmetic                           *)
(* ================================================================== *)


Lemma combine_to_numpy (ly lx : list R) :
  combine (to_numpy ly) (to_numpy lx)
  = map (fun p => (Fin (fst p), Fin (snd p))) (combine ly lx).
Proof.
  revert lx. induction ly as [|a ly IH]; intros [|b lx]; simpl; try reflexivity.
  f_equal. apply IH.
Qed.

Lemma np_cov_to_numpy (ly lx : list R) :
  length ly = length lx -> (2 <= length ly)%nat ->
  np_cov01_ddof1 (to_numpy ly) (to_numpy lx) = Fin (cov_R ly lx).
Proof.
  intros Hl Hn. unfold np_cov01_ddof1, cov_R.
  rewrite !np_mean_to_numpy
    by (intro E; subst; simpl in *; lia).
  rewrite combine_to_numpy, map_map. cbn [fst snd F.sub F.mul].
  change (map (fun x : R * R => Fin ((fst x - mean_R ly) * (snd x - mean_R lx)))
              (combine ly lx))
    with (map (fun x : R * R => Fin ((fun p => (fst p - mean_R ly) * (snd p - mean_R lx)) x))
              (combine ly lx)).
  rewrite <- (map_map (fun p => (fst p - mean_R ly) * (snd p - mean_R lx)) Fin).
  fold (to_numpy (map (fun p => (fst p - mean_R ly) * (snd p - mean_R lx))
                      (combine ly lx))).
  rewrite np_sum_to_numpy, to_numpy_length. unfold F.of_nat.
  apply np_div_nonzero, INR_pos_of_nonempty. lia.
Qed.

Lemma cuped_adjusted_to_numpy (th : R) (ly lx : list R) :
  Cuped.cuped_adjusted (Fin th) (to_numpy ly) (to_numpy lx)
  = to_numpy (adjusted_R th ly lx).
Proof.
  unfold Cuped.cuped_adjusted, adjusted_R.
  destruct lx as [|b lx].
  - destruct ly; reflexivity.
  - rewrite np_mean_to_numpy by congruence.
    rewrite combine_to_numpy, map_map. unfold to_numpy. rewrite map_map.
    reflexivity.
Qed.

Lemma adjusted_R_length (th : R) (ly lx : list R) :
  length ly = length lx -> length (adjusted_R th ly lx) = length ly.
Proof.
  intros Hl. unfold adjusted_R. rewrite length_map, length_combine. lia.
Qed.

Section CupedFacts.
Context {S : Stats}.

(** What [theta] is, by cases on the variance of the covariate. *)
Lemma cuped_theta_cases (ly lx : list R) :
  length ly = length lx ->
  exists th : R,
    Cuped.cuped_theta (to_numpy ly) (to_numpy lx) = Ok (Fin th)
    /\ ((2 <= length lx)%nat -> 0 < var_R lx -> th = cov_R ly lx / var_R lx)
    /\ (~ ((2 <= length lx)%nat /\ 0 < var_R lx) -> th = 0).
Proof.
  intros Hl. unfold Cuped.cuped_theta.
  destruct (le_lt_dec 2 (length lx)) as [Hn|Hn].
  - rewrite np_var_to_numpy by exact Hn. cbn [F.gt]. unfold Rgtb.
    destruct (Rlt_dec 0 (var_R lx)) as [Hv|Hv].
    + rewrite np_cov_to_numpy by lia.
      rewrite py_div_nonzero by lra.
      eexists. split; [reflexivity|]. split; [reflexivity|].
      intros C. exfalso. apply C. split; assumption.
    + exists 0. split; [reflexivity|]. split; [intros; contradiction | reflexivity].
  - rewrite np_var_ddof1_short by (rewrite to_numpy_length; exact Hn).
    cbn [F.gt].
    exists 0. split; [reflexivity|]. split; [intros; lia | reflexivity].
Qed.

(** What the variance-reduction fraction is, by cases on var(y). *)
Lemma variance_reduction_cases (ly lc : list R) :
  length lc = length ly ->
  exists vr : R,
    Cuped.variance_reduction (to_numpy ly) (to_numpy lc) = Ok (Fin vr)
    /\ ((2 <= length ly)%nat -> 0 < var_R ly -> vr = 1 - var_R lc / var_R ly)
    /\ (~ ((2 <= length ly)%nat /\ 0 < var_R ly) -> vr = 0).
Proof.
  intros Hl. unfold Cuped.variance_reduction.
  destruct (le_lt_dec 2 (length ly)) as [Hn|Hn].
  - rewrite !np_var_to_numpy by lia. cbn [F.gt]. unfold Rgtb.
    destruct (Rlt_dec 0 (var_R ly)) as [Hv|Hv].
    + rewrite py_div_nonzero by lra. cbn [bind F.sub].
      eexists. split; [reflexivity|]. split; [reflexivity|].
      intros C. exfalso. apply C. split; assumption.
    + exists 0. split; [reflexivity|]. split; [intros; contradiction | reflexivity].
  - rewrite (np_var_ddof1_short (to_numpy ly))
      by (rewrite to_numpy_length; exact Hn).
    cbn [F.gt].
    exists 0. split; [reflexivity|]. split; [intros; lia | reflexivity].
Qed.

End CupedFacts.

Section CupedReport.
Context {S : Stats}.

Lemma welch_ttest_ci_total (la lb : list R) :
  exists r, Cuped.welch_ttest_ci (to_numpy la) (to_numpy lb) = Ok r.
Proof.
  destruct (le_lt_dec 2 (length la)) as [Ha|Ha];
    [destruct (le_lt_dec 2 (length lb)) as [Hb|Hb]|].
  - unfold Cuped.welch_ttest_ci.
    rewrite welch_radicand_finite by assumption.
    rewrite math_sqrt_nonneg by (apply welch_radicand_nonneg; assumption).
    cbn [bind]. destruct (_ || _ || _)%bool; eexists; reflexivity.
  - eexists. apply welch_ttest_ci_short. right. now rewrite to_numpy_length.
  - eexists. apply welch_ttest_ci_short. left. now rewrite to_numpy_length.
Qed.

Lemma split_to_numpy (v : string) (df : list Cuped.user_row) (l : list R) :
  Cuped.split v df (to_numpy l)
  = to_numpy (map snd (filter (fun p => String.eqb (Cuped.variant (fst p)) v)
                              (combine df l))).
Proof.
  unfold Cuped.split. revert l.
  induction df as [|u df IH]; intros [|a l]; try reflexivity.
  cbn [to_numpy map combine filter fst].
  destruct (String.eqb (Cuped.variant u) v); cbn [map snd];
    specialize (IH l); unfold to_numpy in IH; rewrite IH; reflexivity.
Qed.

(** [main] returns, and its report holds the theta, the adjusted column
    and the variance reduction of its three blocks. *)
Lemma main_report (df : list Cuped.user_row) (th vr : R) :
  let y := to_numpy (map Cuped.y_rev df) in
  let x := to_numpy (map Cuped.x_pre_rev df) in
  Cuped.cuped_theta y x = Ok (Fin th) ->
  Cuped.variance_reduction y (Cuped.cuped_adjusted (Fin th) y x) = Ok (Fin vr) ->
  exists r,
    Cuped.main df = Ok r
    /\ Cuped.theta r = Fin th
    /\ Cuped.y_cuped r = Cuped.cuped_adjusted (Fin th) y x
    /\ Cuped.var_red r = Fin vr.
Proof.
  cbv zeta. intros Hth Hvr. unfold Cuped.main.
  rewrite Hth. cbn [bind].
  rewrite cuped_adjusted_to_numpy in *.
  rewrite !split_to_numpy.
  destruct (welch_ttest_ci_total
              (map snd (filter (fun p => String.eqb (Cuped.variant (fst p)) "control")
                               (combine df (map Cuped.y_rev df))))
              (map snd (filter (fun p => String.eqb (Cuped.variant (fst p)) "treatment")
                               (combine df (map Cuped.y_rev df)))))
    as [raw ->].
  cbn [bind].
  destruct (welch_ttest_ci_total
              (map snd (filter (fun p => String.eqb (Cuped.variant (fst p)) "control")
                               (combine df (adjusted_R th (map Cuped.y_rev df)
                                                       (map Cuped.x_pre_rev df)))))
              (map snd (filter (fun p => String.eqb (Cuped.variant (fst p)) "treatment")
                               (combine df (adjusted_R th (map Cuped.y_rev df)
                                                       (map Cuped.x_pre_rev df))))))
    as [cup ->].
  cbn [bind]. rewrite Hvr. cbn [bind].
  eexists. split; [reflexivity|]. cbn. repeat split; reflexivity.
Qed.

End CupedReport.

(* ================================================================== *)
(** * The CUPED adjuster in binary64                                   *)
(* ================================================================== *)

Lemma Prim2SF_zero : Prim2SF 0%float = S754_zero false.
Proof. reflexivity. Qed.

Lemma SFcompare_finite_refl (s : bool) (m : positive) (e : Z) :
  SFcompare (S754_finite s m e) (S754_finite s m e) = Some Eq.
Proof.
  cbn. destruct s; rewrite Z.compare_refl, Pos.compare_cont_refl; reflexivity.
Qed.

(** A float above 0.0 is not equal to 0.0: the division guarded by
    [var_x > 0] never raises. *)
Lemma ltb_pos_nonzero (v : float) :
  PrimFloat.ltb 0 v = true -> PrimFloat.eqb v 0 = false.
Proof.
  rewrite FloatAxioms.ltb_spec, FloatAxioms.eqb_spec, Prim2SF_zero.
  destruct (Prim2SF v) as [s|s| |s m e]; cbn; try discriminate; try reflexivity.
  all: destruct s; cbn; try discriminate; reflexivity.
Qed.

(** A float equal to 0.0 is not above it. *)
Lemma eqb_zero_not_pos (v : float) :
  PrimFloat.eqb v 0 = true -> PrimFloat.ltb 0 v = false.
Proof.
  intros H. destruct (PrimFloat.ltb 0 v) eqn:E; [|reflexivity].
  rewrite (ltb_pos_nonzero v E) in H. discriminate.
Qed.

(** [y - theta * d == y] when theta is a zero, [d] is finite and [y] is
    not NaN: the product is a zero, and subtracting a zero changes nothing
    but, possibly, the sign of a zero. *)
Lemma sub_mul_zero (y th d : float) :
  PrimFloat.eqb th 0 = true ->
  PrimFloat.is_finite d = true ->
  PrimFloat.is_nan y = false ->
  PrimFloat.eqb (y - th * d)%float y = true.
Proof.
  unfold is_finite, is_nan, is_infinity.
  rewrite !FloatAxioms.eqb_spec, FloatAxioms.sub_spec, FloatAxioms.mul_spec,
    FloatAxioms.abs_spec, Prim2SF_zero.
  change (Prim2SF infinity) with (S754_infinity false).
  unfold SF64sub, SF64mul.
  destruct (Prim2SF th) as [st|st| |st mt et];
    destruct (Prim2SF d) as [sd|sd| |sd md ed];
    destruct (Prim2SF y) as [sy|sy| |sy my ey];
    intros Hth Hd Hy.
  all: try (cbn in Hth; discriminate Hth).
  all: try (cbn in Hd; discriminate Hd).
  all: try (cbn in Hy; discriminate Hy).
  all: try (destruct st; cbn in Hth; discriminate Hth).
  all: try (destruct sd; cbn in Hd; discriminate Hd).
  all: try (unfold SFeqb in Hy; rewrite SFcompare_finite_refl in Hy;
            discriminate Hy).
  all: cbn [SFmul SFsub xorb].
  all: try (destruct sy, st, sd; reflexivity).
  all: try (unfold SFeqb; rewrite SFcompare_finite_refl; reflexivity).
Qed.

Section CupedBinary64.
Context {N : NumPy float}.

(** With a zero theta the adjusted column compares equal to the column. *)
Lemma adjusted_by_zero (th : float) (y x : B64.ndarray) :
  PrimFloat.eqb th 0 = true ->
  length y = length x ->
  Forall (fun v => PrimFloat.is_nan v = false) y ->
  Forall (fun v => PrimFloat.is_finite (v - B64.np_mean x) = true) x ->
  Forall2 B64.float_eq (B64.cuped_adjusted th y x) y.
Proof.
  intros Hth. unfold B64.cuped_adjusted. generalize (B64.np_mean x) as m.
  intros m. revert x.
  induction y as [|a y IH]; intros [|b x] Hl Hy Hx; simpl in *;
    try discriminate; constructor.
  - inversion Hy; inversion Hx; subst. apply sub_mul_zero; assumption.
  - inversion Hy; inversion Hx; subst. apply IH; [lia | assumption | assumption].
Qed.

(** C7 (as the code has it). For equal-length columns y and x, computed in
    binary64 and whatever the order in which NumPy adds: theta is
    cov(y,x)/var(x), both with divisor n - 1, when the computed var(x) is
    above 0, and theta is 0.0 otherwise, in particular when the computed
    var(x) equals 0.  Whenever theta is a zero, the adjusted column
    y - theta (x - mean(x)) equals y element for element (y without NaN,
    the deviations of x finite).  That x is constant does not enter: what
    decides is the computed variance, which rounding of the mean can leave
    above 0 for a constant x. *)
Theorem cuped_theta_and_adjustment (y x : B64.ndarray) :
  length y = length x ->
  Forall (fun v => PrimFloat.is_nan v = false) y ->
  Forall (fun v => PrimFloat.is_finite (v - B64.np_mean x) = true) x ->
  (PrimFloat.ltb 0 (B64.np_var_ddof1 x) = true ->
   B64.cuped_theta y x
   = Ok (B64.np_cov01_ddof1 y x / B64.np_var_ddof1 x)%float)
  /\ (PrimFloat.ltb 0 (B64.np_var_ddof1 x) = false ->
      B64.cuped_theta y x = Ok 0%float
      /\ Forall2 B64.float_eq (B64.cuped_adjusted 0 y x) y)
  /\ (B64.float_eq (B64.np_var_ddof1 x) 0 ->
      B64.cuped_theta y x = Ok 0%float)
  /\ (forall th, B64.cuped_theta y x = Ok th -> B64.float_eq th 0 ->
      Forall2 B64.float_eq (B64.cuped_adjusted th y x) y).
Proof.
  intros Hl Hy Hx.
  split; [|split; [|split]].
  - intros Hv. unfold B64.cuped_theta, B64.py_div.
    rewrite Hv, (ltb_pos_nonzero _ Hv). reflexivity.
  - intros Hv. split.
    + unfold B64.cuped_theta. rewrite Hv. reflexivity.
    + apply adjusted_by_zero; [reflexivity | assumption..].
  - intros Hz. unfold B64.cuped_theta.
    rewrite (eqb_zero_not_pos _ Hz). reflexivity.
  - intros th _ Hth. apply adjusted_by_zero; assumption.
Qed.

End CupedBinary64.

(** Revenues 1, 2, 4 against a covariate stuck at 0.1, three elements
    added from left to right: the covariate is constant, its computed
    variance is above 0, theta is above 10 and the first adjusted revenue
    is above the revenue 1 it came from. *)
Lemma cuped_constant_covariate_counterexample :
  (forall u v, In u tenths -> In v tenths -> u = v)
  /\ length revenues = length tenths
  /\ PrimFloat.ltb 0 (@B64.np_var_ddof1 B64.left_to_right tenths) = true
  /\ exists th a rest,
       @B64.cuped_theta B64.left_to_right revenues tenths = Ok th
       /\ PrimFloat.ltb 10 th = true
       /\ @B64.cuped_adjusted B64.left_to_right th revenues tenths = a :: rest
       /\ hd 0%float revenues = 1%float
       /\ PrimFloat.ltb 1 a = true.
Proof.
  split.
  { intros u v Hu Hv. unfold tenths in Hu, Hv. simpl in Hu, Hv.
    repeat (destruct Hu as [Hu|Hu]; [subst u|]); try contradiction;
      repeat (destruct Hv as [Hv|Hv]; [subst v|]); try contradiction;
        reflexivity. }
  split; [reflexivity|]. split; [vm_compute; reflexivity|].
  eexists. eexists. eexists.
  split; [vm_compute; reflexivity|].
  split; [vm_compute; reflexivity|].
  split; [vm_compute; reflexivity|].
  split; vm_compute; reflexivity.
Qed.

(** Revenues 1, 2, 4 against a covariate stuck at 5: the computed variance
    is 0, theta is 0.0 and the adjusted column is the column. *)
Lemma cuped_theta_and_adjustment_witness :
  length revenues = length fives
  /\ Forall (fun v => PrimFloat.is_nan v = false) revenues
  /\ Forall (fun v => PrimFloat.is_finite
                        (v - @B64.np_mean B64.left_to_right fives) = true) fives
  /\ PrimFloat.ltb 0 (@B64.np_var_ddof1 B64.left_to_right fives) = false
  /\ @B64.cuped_theta B64.left_to_right revenues fives = Ok 0%float
  /\ Forall2 B64.float_eq
             (@B64.cuped_adjusted B64.left_to_right 0 revenues fives) revenues.
Proof.
  assert (Hl : length revenues = length fives) by reflexivity.
  assert (Hy : Forall (fun v => PrimFloat.is_nan v = false) revenues)
    by (repeat constructor).
  assert (Hx : Forall (fun v => PrimFloat.is_finite
                                  (v - @B64.np_mean B64.left_to_right fives) = true)
                      fives)
    by (repeat constructor).
  assert (Hv : PrimFloat.ltb 0 (@B64.np_var_ddof1 B64.left_to_right fives) = false)
    by (vm_compute; reflexivity).
  split; [exact Hl|]. split; [exact Hy|]. split; [exact Hx|].
  split; [exact Hv|].
  exact (proj1 (proj2 (@cuped_theta_and_adjustment B64.left_to_right
                         revenues fives Hl Hy Hx)) Hv).
Defined.

(** On a column regressed on itself, stuck at 0.1, binary64 gives theta 1
    and a variance reduction of 1: the computed variance is above 0. *)
Lemma variance_reduction_of_tenths :
  @B64.cuped_theta B64.left_to_right tenths tenths = Ok 1%float
  /\ @B64.variance_reduction B64.left_to_right tenths
       (@B64.cuped_adjusted B64.left_to_right 1 tenths tenths)
     = Ok 1%float.
Proof. split; vm_compute; reflexivity. Qed.

(* ================================================================== *)
(** * The CUPED adjuster under rounding                                *)
(* ================================================================== *)



Section RoundedFacts.
Variable rnd : R -> R.
Hypothesis rnd_mono : forall a b, a <= b -> rnd a <= rnd b.
Hypothesis rnd_0 : rnd 0 = 0.





Context {N : NumPy float64}.
Hypothesis add_reduce_float :
  forall l : list R,
    exists s, add_reduce (to_numpy l) = Fin s
              /\ (Forall (fun v => 0 <= v) l -> 0 <= s).
Hypothesis np_dot_float :
  forall la lb : list R, exists d, np_dot (to_numpy la) (to_numpy lb) = Fin d.








Hypothesis rnd_1 : rnd 1 = 1.


End RoundedFacts.


(* ================================================================== *)
(** * The SRM checker                                                  *)
(* ================================================================== *)

Lemma exp_200_large : 20000000000 < exp 200.
Proof.
  assert (H25 : 26 < exp 25) by (pose proof (exp_ineq1 25); lra).
  assert (H50 : 676 < exp 50).
  { replace 50 with (25 + 25) by lra. rewrite exp_plus. nra. }
  assert (H100 : 456976 < exp 100).
  { replace 100 with (50 + 50) by lra. rewrite exp_plus. nra. }
  replace 200 with (100 + 100) by lra. rewrite exp_plus. nra.
Qed.

Lemma two_exp_minus_200_small : 2 * exp (Ropp 400 / 2) < 1e-10.
Proof.
  replace (Ropp 400 / 2) with (Ropp 200) by lra.
  rewrite exp_Ropp.
  pose proof exp_200_large as H.
  assert (Hinv : / exp 200 < / 20000000000)
    by (apply Rinv_lt_contravar; [nra | exact H]).
  lra.
Qed.

Section SrmClaims.
Context {S : Stats}.
Import SrmGuardrails.

(** The upper tail of the chi-square law with one degree of freedom lies
    under the Gaussian tail bound 2 exp(-x/2); assumed of the library's
    [chi2.sf]. *)
Hypothesis chi2_sf_tail : forall x : R, 0 <= x -> chi2_sf x 1 <= 2 * exp (- x / 2).

Lemma srm_test_statistic (n_c n_t : Z) (share : R) :
  let total := IZR (n_c + n_t) in
  let exp_c := total * (1 - share) in
  let exp_t := total * share in
  exp_c <> 0 -> exp_t <> 0 ->
  let stat := (IZR n_c - exp_c) * (IZR n_c - exp_c) / exp_c
              + (IZR n_t - exp_t) * (IZR n_t - exp_t) / exp_t in
  chi2 (srm_test n_c n_t (Fin share)) = Fin stat
  /\ p_value (srm_test n_c n_t (Fin share)) = Fin (chi2_sf stat 1).
Proof.
  cbv zeta. intros Hc Ht.
  unfold srm_test, chisquare, F.of_Z.
  cbn [F.mul F.sub combine map fst snd F.sqr np_sum fold_right length].
  rewrite !np_div_nonzero by assumption.
  cbn [F.add F.lift chi2 p_value].
  rewrite Rplus_0_r. split; reflexivity.
Qed.

(** C5. The SRM checker tests [n_control, n_treatment] against the expected
    counts total*(1-share) and total*share with Pearson's chi-square
    statistic on two categories (one degree of freedom); at 6000 / 4000
    with share 0.5 the statistic is 400 and the p-value is below 1e-10. *)
Theorem srm_test_chi_square :
  (forall (n_c n_t : Z) (share : R),
      let total := IZR (n_c + n_t) in
      let exp_c := total * (1 - share) in
      let exp_t := total * share in
      exp_c <> 0 -> exp_t <> 0 ->
      let stat := (IZR n_c - exp_c) * (IZR n_c - exp_c) / exp_c
                  + (IZR n_t - exp_t) * (IZR n_t - exp_t) / exp_t in
      chi2 (srm_test n_c n_t (Fin share)) = Fin stat
      /\ p_value (srm_test n_c n_t (Fin share)) = Fin (chi2_sf stat 1))
  /\ chi2 (srm_test 6000 4000 (Fin 0.5)) = Fin 400
  /\ exists p : R,
       p_value (srm_test 6000 4000 (Fin 0.5)) = Fin p /\ p < 1e-10.
Proof.
  split; [exact srm_test_statistic|].
  assert (Hc : IZR (6000 + 4000) * (1 - 0.5) <> 0) by (simpl; lra).
  assert (Ht : IZR (6000 + 4000) * 0.5 <> 0) by (simpl; lra).
  destruct (srm_test_statistic 6000 4000 0.5 Hc Ht) as [E1 E2].
  assert (Hs : (6000 - IZR (6000 + 4000) * (1 - 0.5))
               * (6000 - IZR (6000 + 4000) * (1 - 0.5))
               / (IZR (6000 + 4000) * (1 - 0.5))
               + (4000 - IZR (6000 + 4000) * 0.5)
                 * (4000 - IZR (6000 + 4000) * 0.5)
                 / (IZR (6000 + 4000) * 0.5) = 400)
    by (simpl; lra).
  rewrite Hs in E1, E2.
  split; [exact E1|].
  exists (chi2_sf 400 1). split; [exact E2|].
  pose proof (chi2_sf_tail 400 ltac:(lra)) as Hb.
  pose proof two_exp_minus_200_small. lra.
Qed.

End SrmClaims.

(* ================================================================== *)
(** * The readout orchestrator and the decision rule                   *)
(* ================================================================== *)

Section ReadoutFacts.
Context {S : Stats} {T : PyText}.
Import AbReadout.

Lemma rel_diff_of_total (diff p1 : float64) :
  exists rd, rel_diff_of diff p1 = Ok rd.
Proof.
  unfold rel_diff_of. destruct p1 as [b|]; cbn [F.gt]; [|eexists; reflexivity].
  unfold Rgtb. destruct (Rlt_dec 0 b) as [H|H]; [|eexists; reflexivity].
  unfold F.py_div. rewrite Reqb'_false by lra.
  destruct diff; eexists; reflexivity.
Qed.

Lemma proportion_metric_total (name : string) (r : ztest_result) :
  exists m, proportion_metric name r = Ok m /\ metric m = name.
Proof.
  destruct r as [[[[p1 p2] diff] [lo hi]] pval]. unfold proportion_metric.
  destruct (rel_diff_of_total diff p1) as [rd ->]. cbn [bind].
  eexists. split; reflexivity.
Qed.

Lemma proportion_metric_name (name : string) (r : ztest_result) (m : MetricResult) :
  proportion_metric name r = Ok m -> metric m = name.
Proof.
  intros H. destruct (proportion_metric_total name r) as (m' & E & N).
  congruence.
Qed.

Lemma two_sample_ttest_total (la lb : list R) :
  exists r, _two_sample_ttest (to_numpy la) (to_numpy lb) = Ok r.
Proof.
  destruct (le_lt_dec 2 (length la)) as [Ha|Ha];
    [destruct (le_lt_dec 2 (length lb)) as [Hb|Hb]|].
  - unfold _two_sample_ttest.
    destruct (_ || _)%bool; [eexists; reflexivity|]. cbv zeta.
    rewrite welch_radicand_finite by assumption.
    rewrite math_sqrt_nonneg by (apply welch_radicand_nonneg; assumption).
    cbn [bind]. destruct (F.eq _ _); eexists; reflexivity.
  - eexists. apply two_sample_ttest_short. right. now rewrite to_numpy_length.
  - eexists. apply two_sample_ttest_short. left. now rewrite to_numpy_length.
Qed.

Lemma format_row_metric (m : MetricResult) : d_metric (format_row m) = metric m.
Proof. unfold format_row. destruct (is_proportion_metric (metric m)); reflexivity. Qed.

(** Every numeric cell of a formatted row is a str. *)
Lemma format_row_strings (m : MetricResult) (cell : pyobj) :
  In cell (numeric_cells (format_row m)) -> exists s, cell = PyStr s.
Proof.
  unfold format_row, numeric_cells.
  destruct (is_proportion_metric (metric m)), (notnull (rel_diff m));
    cbn [d_control d_treatment d_abs_diff d_rel_diff d_ci_low d_ci_high d_p_value In];
    intros H; repeat (destruct H as [H|H]; [eexists; symmetry; exact H|]);
      contradiction.
Qed.

(** The five rows come out ordered by metric name. *)
Lemma sort_five_rows (r1 r2 r3 r4 r5 : display_row) :
  d_metric r1 = "purchase_rate_per_session"%string ->
  d_metric r2 = "ctr"%string ->
  d_metric r3 = "atc_rate"%string ->
  d_metric r4 = "purchase_rate_given_atc"%string ->
  d_metric r5 = "revenue_per_session"%string ->
  sort_values_metric [r1; r2; r3; r4; r5] = [r3; r2; r4; r1; r5].
Proof.
  intros E1 E2 E3 E4 E5. unfold sort_values_metric.
  cbn [fold_right insert_row].
  rewrite E4, E5. cbn [insert_row]. change (String.leb _ _) with true at 1.
  cbn [insert_row].
  rewrite E3, E4. change (String.leb _ _) with true at 1. cbn [insert_row].
  rewrite E2, E3. change (String.leb "ctr" "atc_rate") with false.
  rewrite E4. change (String.leb "ctr" "purchase_rate_given_atc") with true.
  cbn [insert_row].
  rewrite E1, E3. change (String.leb "purchase_rate_per_session" "atc_rate") with false.
  rewrite E2. change (String.leb "purchase_rate_per_session" "ctr") with false.
  rewrite E4.
  change (String.leb "purchase_rate_per_session" "purchase_rate_given_atc") with false.
  rewrite E5.
  change (String.leb "purchase_rate_per_session" "revenue_per_session") with true.
  reflexivity.
Qed.

End ReadoutFacts.

Section ReadoutClaims.
Context {S : Stats} {T : PyText}.
Import AbReadout GenerateReport.

Lemma bind_ok_inv {A B : Type} (m : result A) (k : A -> result B) (b : B) :
  bind m k = Ok b -> exists a, m = Ok a /\ k a = Ok b.
Proof. destruct m as [a|e]; cbn; [eauto | discriminate]. Qed.

(** The shape of a successful [metric_results]: four proportion tests on
    the counts named in the source, and the revenue comparison. *)
Lemma metric_results_inv (df : list fact_session) (res : list MetricResult) :
  metric_results df = Ok res ->
  let c := with_variant "control" df in
  let t := with_variant "treatment" df in
  exists r1 r2 r3 r4 m1 m2 m3 m4 m5,
    _two_proportion_ztest (col_sum has_purchase c) (Z.of_nat (length c))
                          (col_sum has_purchase t) (Z.of_nat (length t)) = Ok r1
    /\ proportion_metric "purchase_rate_per_session" r1 = Ok m1
    /\ _two_proportion_ztest (col_sum has_click c) (col_sum has_impression c)
                             (col_sum has_click t) (col_sum has_impression t) = Ok r2
    /\ proportion_metric "ctr" r2 = Ok m2
    /\ _two_proportion_ztest (col_sum has_add_to_cart c) (col_sum has_click c)
                             (col_sum has_add_to_cart t) (col_sum has_click t) = Ok r3
    /\ proportion_metric "atc_rate" r3 = Ok m3
    /\ _two_proportion_ztest (col_sum has_purchase c) (col_sum has_add_to_cart c)
                             (col_sum has_purchase t) (col_sum has_add_to_cart t) = Ok r4
    /\ proportion_metric "purchase_rate_given_atc" r4 = Ok m4
    /\ metric m5 = "revenue_per_session"%string
    /\ control m5 = np_mean (to_numpy (map revenue c))
    /\ treatment m5 = np_mean (to_numpy (map revenue t))
    /\ res = [m1; m2; m3; m4; m5].
Proof.
  cbv zeta. unfold metric_results. intros H.
  apply bind_ok_inv in H. destruct H as (r1 & E1 & H).
  apply bind_ok_inv in H. destruct H as (m1 & M1 & H).
  apply bind_ok_inv in H. destruct H as (r2 & E2 & H).
  apply bind_ok_inv in H. destruct H as (m2 & M2 & H).
  apply bind_ok_inv in H. destruct H as (r3 & E3 & H).
  apply bind_ok_inv in H. destruct H as (m3 & M3 & H).
  apply bind_ok_inv in H. destruct H as (r4 & E4 & H).
  apply bind_ok_inv in H. destruct H as (m4 & M4 & H).
  apply bind_ok_inv in H. destruct H as (r5 & E5 & H).
  destruct r5 as [[diff [lo hi]] pval].
  apply bind_ok_inv in H. destruct H as (rd & Erd & H).
  injection H as H.
  exists r1, r2, r3, r4, m1, m2, m3, m4.
  eexists. repeat (split; [eassumption|]).
  rewrite <- H. repeat split; reflexivity.
Qed.

(** If the four proportion tests return, so does [metric_results]. *)
Lemma metric_results_returns (df : list fact_session) (r1 r2 r3 r4 : ztest_result) :
  let c := with_variant "control" df in
  let t := with_variant "treatment" df in
  _two_proportion_ztest (col_sum has_purchase c) (Z.of_nat (length c))
                        (col_sum has_purchase t) (Z.of_nat (length t)) = Ok r1 ->
  _two_proportion_ztest (col_sum has_click c) (col_sum has_impression c)
                        (col_sum has_click t) (col_sum has_impression t) = Ok r2 ->
  _two_proportion_ztest (col_sum has_add_to_cart c) (col_sum has_click c)
                        (col_sum has_add_to_cart t) (col_sum has_click t) = Ok r3 ->
  _two_proportion_ztest (col_sum has_purchase c) (col_sum has_add_to_cart c)
                        (col_sum has_purchase t) (col_sum has_add_to_cart t) = Ok r4 ->
  exists res, metric_results df = Ok res.
Proof.
  cbv zeta. intros E1 E2 E3 E4. unfold metric_results.
  rewrite E1. cbn [bind].
  destruct (proportion_metric_total "purchase_rate_per_session" r1) as (m1 & -> & _).
  cbn [bind]. rewrite E2. cbn [bind].
  destruct (proportion_metric_total "ctr" r2) as (m2 & -> & _).
  cbn [bind]. rewrite E3. cbn [bind].
  destruct (proportion_metric_total "atc_rate" r3) as (m3 & -> & _).
  cbn [bind]. rewrite E4. cbn [bind].
  destruct (proportion_metric_total "purchase_rate_given_atc" r4) as (m4 & -> & _).
  cbn [bind].
  destruct (two_sample_ttest_total
              (map revenue (with_variant "control" df))
              (map revenue (with_variant "treatment" df))) as ([[diff [lo hi]] pval] & ->).
  cbn [bind].
  destruct (rel_diff_of_total
              diff (np_mean (to_numpy (map revenue (with_variant "control" df)))))
    as (rd & ->).
  cbn [bind]. eexists. reflexivity.
Qed.

(** A returned table is the five formatted rows, ordered by metric name. *)
Lemma run_readout_table (db : list fact_session) (eid : string)
    (table : list display_row) :
  run_readout db eid = Ok table ->
  fetchdf db eid <> []
  /\ exists m1 m2 m3 m4 m5,
       metric_results (fetchdf db eid) = Ok [m1; m2; m3; m4; m5]
       /\ metric m1 = "purchase_rate_per_session"%string
       /\ metric m2 = "ctr"%string
       /\ metric m3 = "atc_rate"%string
       /\ metric m4 = "purchase_rate_given_atc"%string
       /\ metric m5 = "revenue_per_session"%string
       /\ table = [format_row m3; format_row m2; format_row m4;
                   format_row m1; format_row m5].
Proof.
  unfold run_readout. intros H.
  destruct (fetchdf db eid) as [|s df] eqn:Edf; [discriminate|].
  split; [discriminate|].
  apply bind_ok_inv in H. destruct H as (res & Hres & H).
  injection H as H.
  destruct (metric_results_inv _ _ Hres)
    as (r1 & r2 & r3 & r4 & m1 & m2 & m3 & m4 & m5 &
        _ & M1 & _ & M2 & _ & M3 & _ & M4 & N5 & _ & _ & ->).
  apply proportion_metric_name in M1, M2, M3, M4.
  exists m1, m2, m3, m4, m5.
  repeat (split; [first [reflexivity | assumption]|]).
  rewrite <- H. cbn [map].
  apply sort_five_rows; rewrite format_row_metric; assumption.
Qed.

Lemma run_readout_empty (db : list fact_session) (eid : string) :
  fetchdf db eid = [] -> run_readout db eid = Raise (ValueError no_data_message).
Proof. intros H. unfold run_readout. now rewrite H. Qed.

End ReadoutClaims.

Section ReadoutTheorems.
Context {S : Stats} {T : PyText}.
Import AbReadout GenerateReport.

Lemma format_row_proportion (m : MetricResult) :
  is_proportion_metric (metric m) = true ->
  d_control (format_row m) = PyStr (pct (control m))
  /\ d_treatment (format_row m) = PyStr (pct (treatment m))
  /\ d_abs_diff (format_row m) = PyStr (pct (abs_diff m))
  /\ d_ci_low (format_row m) = PyStr (pct (ci_low m))
  /\ d_ci_high (format_row m) = PyStr (pct (ci_high m))
  /\ d_p_value (format_row m) = PyStr (num (p_value m)).
Proof. intros H. unfold format_row. rewrite H. repeat split; reflexivity. Qed.

Lemma primary_row_of_table (m1 m2 m3 m4 m5 : MetricResult) :
  metric m1 = "purchase_rate_per_session"%string ->
  metric m2 = "ctr"%string ->
  metric m3 = "atc_rate"%string ->
  metric m4 = "purchase_rate_given_atc"%string ->
  metric m5 = "revenue_per_session"%string ->
  primary_row [format_row m3; format_row m2; format_row m4;
               format_row m1; format_row m5] = Ok (format_row m1).
Proof.
  intros N1 N2 N3 N4 N5. unfold primary_row. cbn [filter].
  rewrite !format_row_metric, N1, N2, N3, N4, N5. reflexivity.
Qed.

(** C1 (as the code has it). [run_readout] computes the [MetricResult]
    records as raw floats, but the table it returns holds display strings
    in every numeric column: the five formatted rows, ordered by metric
    name.  The ship/hold rule of [generate_report] reads the primary
    row's p-value and absolute difference back from those strings. *)
Theorem run_readout_display_strings (db : list fact_session) (eid : string)
    (table : list display_row) :
  run_readout db eid = Ok table ->
  exists m1 m2 m3 m4 m5 : MetricResult,
    metric_results (fetchdf db eid) = Ok [m1; m2; m3; m4; m5]
    /\ table = [format_row m3; format_row m2; format_row m4;
                format_row m1; format_row m5]
    /\ (forall row, In row table ->
        forall cell, In cell (numeric_cells row) -> exists s, cell = PyStr s)
    /\ metric m1 = "purchase_rate_per_session"%string
    /\ ship_decision table
       = (pval_primary <- float_of_str (num (p_value m1)) ;;
          parsed <- float_of_str (strip_percent (pct (abs_diff m1))) ;;
          abs_diff_num <- F.py_div parsed (Fin 100) ;;
          Ok (F.lt pval_primary (Fin 0.05) && F.gt abs_diff_num (Fin 0))%bool).
Proof.
  intros H.
  destruct (run_readout_table db eid table H)
    as (_ & m1 & m2 & m3 & m4 & m5 & Hres & N1 & N2 & N3 & N4 & N5 & ->).
  exists m1, m2, m3, m4, m5.
  split; [exact Hres|]. split; [reflexivity|]. split; [|split; [exact N1|]].
  - intros row Hrow cell Hcell. cbn [In] in Hrow.
    repeat (destruct Hrow as [Hrow|Hrow];
            [subst row; exact (format_row_strings _ _ Hcell)|]).
    contradiction.
  - unfold ship_decision.
    rewrite (primary_row_of_table m1 m2 m3 m4 m5 N1 N2 N3 N4 N5). cbn [bind].
    assert (P : is_proportion_metric (metric m1) = true) by (rewrite N1; reflexivity).
    destruct (format_row_proportion m1 P) as (_ & _ & Ed & _ & _ & Ep).
    rewrite Ed, Ep. reflexivity.
Qed.

(** C2. When no experiment-period row of the experiment exists,
    [run_readout] raises the no-data error (a [ValueError] carrying the
    no-data message), returns no table at all, and the error reaches the
    caller in [generate_report]. *)
Theorem run_readout_no_data (db : list fact_session) (eid : string) :
  fetchdf db eid = [] ->
  run_readout db eid
  = Raise (ValueError
             "No experiment-period sessions found. Check experiment_id or data.")
  /\ (forall table, run_readout db eid <> Ok table)
  /\ readout_and_decide db eid
     = Raise (ValueError
                "No experiment-period sessions found. Check experiment_id or data.").
Proof.
  intros H. pose proof (run_readout_empty db eid H) as E.
  split; [exact E|]. split.
  - intros table C. rewrite E in C. discriminate.
  - unfold readout_and_decide. rewrite E. reflexivity.
Qed.

(** With nonzero denominators the comparator reaches the pooled proportion
    after the first square root. *)
Lemma ztest_pooled_call (x1 n1 x2 n2 : Z) :
  n1 <> 0%Z -> n2 <> 0%Z ->
  _two_proportion_ztest x1 n1 x2 n2 =
    (se_ci <- F.math_sqrt (Fin (ProportionSpec.se_ci_radicand x1 n1 x2 n2)) ;;
     p_pool <- F.py_div (F.of_Z (x1 + x2)) (F.of_Z (n1 + n2)) ;;
     r1 <- F.py_div (Fin 1) (F.of_Z n1) ;;
     r2 <- F.py_div (Fin 1) (F.of_Z n2) ;;
     se_pooled <- F.math_sqrt (p_pool * (Fin 1 - p_pool) * (r1 + r2))%fl ;;
     p_value <-
       (if F.eq se_pooled (Fin 0) then Ok (Fin 1)
        else
          z_stat <- F.py_div (Fin (ProportionSpec.diff x1 n1 x2 n2)) se_pooled ;;
          Ok (Fin 2 * (Fin 1 - F.lift norm_cdf (F.abs z_stat)))%fl) ;;
     Ok (Fin (IZR x1 / IZR n1), Fin (IZR x2 / IZR n2),
         Fin (ProportionSpec.diff x1 n1 x2 n2),
         ((Fin (ProportionSpec.diff x1 n1 x2 n2) - Fin (norm_ppf 0.975) * se_ci)%fl,
          (Fin (ProportionSpec.diff x1 n1 x2 n2) + Fin (norm_ppf 0.975) * se_ci)%fl),
         p_value)).
Proof.
  intros N1 N2. unfold _two_proportion_ztest.
  replace ((n1 =? 0)%Z || (n2 =? 0)%Z)%bool with false
    by (symmetry; apply orb_false_intro; apply Z.eqb_neq; assumption).
  unfold F.of_Z at 1 2 3 4.
  rewrite !(py_div_nonzero (IZR x1)), !(py_div_nonzero (IZR x2))
    by (apply IZR_nonzero; assumption).
  cbn [bind F.sub F.mul F.add].
  rewrite (py_div_nonzero _ (IZR n1)), (py_div_nonzero _ (IZR n2))
    by (apply IZR_nonzero; assumption).
  cbn [bind F.add]. reflexivity.
Qed.

(** What a returned comparator tuple holds when both denominators are
    nonzero. *)
Lemma ztest_returned (x1 n1 x2 n2 : Z) (r : ztest_result) :
  _two_proportion_ztest x1 n1 x2 n2 = Ok r ->
  n1 <> 0%Z -> n2 <> 0%Z ->
  r = (Fin (IZR x1 / IZR n1), Fin (IZR x2 / IZR n2),
       Fin (ProportionSpec.diff x1 n1 x2 n2),
       (Fin (ProportionSpec.diff x1 n1 x2 n2
             - norm_ppf 0.975 * ProportionSpec.se_ci x1 n1 x2 n2),
        Fin (ProportionSpec.diff x1 n1 x2 n2
             + norm_ppf 0.975 * ProportionSpec.se_ci x1 n1 x2 n2)),
       Fin (ProportionSpec.p_value x1 n1 x2 n2)).
Proof.
  intros H N1 N2.
  assert (Hci : 0 <= ProportionSpec.se_ci_radicand x1 n1 x2 n2).
  { destruct (Rlt_dec (ProportionSpec.se_ci_radicand x1 n1 x2 n2) 0) as [Hneg|];
      [|lra].
    rewrite ztest_pooled_call, math_sqrt_neg in H by assumption. discriminate. }
  assert (N12 : (n1 + n2)%Z <> 0%Z).
  { intros Hz. rewrite ztest_pooled_call, math_sqrt_nonneg in H by assumption.
    cbn [bind] in H. rewrite Hz in H. unfold F.of_Z at 2, F.py_div in H.
    rewrite Reqb'_true in H by reflexivity. discriminate. }
  rewrite ztest_sqrt_calls, math_sqrt_nonneg in H by assumption.
  cbn [bind] in H.
  assert (Hpo : 0 <= ProportionSpec.se_pooled_radicand x1 n1 x2 n2).
  { destruct (Rlt_dec (ProportionSpec.se_pooled_radicand x1 n1 x2 n2) 0)
      as [Hneg|]; [|lra].
    rewrite math_sqrt_neg in H by assumption. discriminate. }
  rewrite math_sqrt_nonneg in H by assumption. cbn [bind F.eq] in H.
  unfold ProportionSpec.p_value, ProportionSpec.se_pooled, ProportionSpec.se_ci.
  destruct (Req_dec_T (sqrt (ProportionSpec.se_pooled_radicand x1 n1 x2 n2)) 0)
    as [E|E].
  - rewrite Reqb'_true in H by exact E. injection H as <-. reflexivity.
  - rewrite Reqb'_false in H by exact E. rewrite py_div_nonzero in H by exact E.
    injection H as <-. reflexivity.
Qed.

(** A returned proportion block is the record of the counts it was given. *)
Lemma proportion_metric_returned (name : string) (x1 n1 x2 n2 : Z)
    (r : ztest_result) (m : MetricResult) :
  _two_proportion_ztest x1 n1 x2 n2 = Ok r ->
  proportion_metric name r = Ok m ->
  m = ReadoutSpec.proportion_row name x1 n1 x2 n2.
Proof.
  intros H M. unfold ReadoutSpec.proportion_row.
  destruct ((n1 =? 0)%Z || (n2 =? 0)%Z)%bool eqn:Ez.
  - apply orb_true_iff in Ez.
    rewrite ztest_degenerate in H
      by (destruct Ez as [Ez|Ez]; [left | right]; now apply Z.eqb_eq).
    injection H as <-. unfold proportion_metric, rel_diff_of in M.
    cbn [F.gt] in M. unfold Rgtb in M.
    destruct (Rlt_dec 0 0) as [C|_]; [lra|].
    cbn [bind] in M. injection M as <-. reflexivity.
  - apply orb_false_iff in Ez. destruct Ez as [E1 E2].
    apply Z.eqb_neq in E1, E2.
    rewrite (ztest_returned x1 n1 x2 n2 r H E1 E2) in M.
    unfold proportion_metric, rel_diff_of in M. cbn [F.gt] in M.
    unfold Rgtb in M. cbv zeta.
    destruct (Rlt_dec 0 (IZR x1 / IZR n1)) as [Hp|Hp].
    + rewrite py_div_nonzero in M by lra. cbn [bind] in M.
      injection M as <-. reflexivity.
    + cbn [bind] in M. injection M as <-. reflexivity.
Qed.

(** The two rate cells of a proportion row over nonzero denominators. *)
Lemma proportion_row_rates (name : string) (x1 n1 x2 n2 : Z) :
  is_proportion_metric name = true ->
  n1 <> 0%Z -> n2 <> 0%Z ->
  d_control (format_row (ReadoutSpec.proportion_row name x1 n1 x2 n2))
  = PyStr (pct (Fin (IZR x1 / IZR n1)))
  /\ d_treatment (format_row (ReadoutSpec.proportion_row name x1 n1 x2 n2))
     = PyStr (pct (Fin (IZR x2 / IZR n2))).
Proof.
  intros P N1 N2. unfold ReadoutSpec.proportion_row.
  replace ((n1 =? 0)%Z || (n2 =? 0)%Z)%bool with false
    by (symmetry; apply orb_false_intro; apply Z.eqb_neq; assumption).
  cbv zeta. unfold format_row. cbn [metric]. rewrite P.
  split; reflexivity.
Qed.

(** C9. In a returned readout the chained funnel rates are computed on the
    counts of the prior stage, per variant: the ctr row is the record of
    clicks over impressions, the atc_rate row of add-to-carts over clicks,
    the purchase_rate_given_atc row of purchases over add-to-carts; only
    purchase_rate_per_session has the session counts as denominators.
    With nonzero denominators the control and treatment cells of the three
    funnel rows show clicks/impressions, add-to-carts/clicks and
    purchases/add-to-carts. *)
Theorem run_readout_funnel_denominators (db : list fact_session) (eid : string)
    (table : list display_row) :
  run_readout db eid = Ok table ->
  let df := fetchdf db eid in
  let c := with_variant "control" df in
  let t := with_variant "treatment" df in
  let n_c := Z.of_nat (length c) in
  let n_t := Z.of_nat (length t) in
  let imp_c := col_sum has_impression c in
  let imp_t := col_sum has_impression t in
  let clk_c := col_sum has_click c in
  let clk_t := col_sum has_click t in
  let atc_c := col_sum has_add_to_cart c in
  let atc_t := col_sum has_add_to_cart t in
  let x_c := col_sum has_purchase c in
  let x_t := col_sum has_purchase t in
  filter (fun r => String.eqb (d_metric r) "ctr") table
  = [format_row (ReadoutSpec.proportion_row "ctr" clk_c imp_c clk_t imp_t)]
  /\ filter (fun r => String.eqb (d_metric r) "atc_rate") table
     = [format_row (ReadoutSpec.proportion_row "atc_rate" atc_c clk_c atc_t clk_t)]
  /\ filter (fun r => String.eqb (d_metric r) "purchase_rate_given_atc") table
     = [format_row (ReadoutSpec.proportion_row "purchase_rate_given_atc"
                                                x_c atc_c x_t atc_t)]
  /\ filter (fun r => String.eqb (d_metric r) "purchase_rate_per_session") table
     = [format_row (ReadoutSpec.proportion_row "purchase_rate_per_session"
                                                x_c n_c x_t n_t)]
  /\ (imp_c <> 0%Z -> imp_t <> 0%Z ->
      forall row, In row table -> d_metric row = "ctr"%string ->
        d_control row = PyStr (pct (Fin (IZR clk_c / IZR imp_c)))
        /\ d_treatment row = PyStr (pct (Fin (IZR clk_t / IZR imp_t))))
  /\ (clk_c <> 0%Z -> clk_t <> 0%Z ->
      forall row, In row table -> d_metric row = "atc_rate"%string ->
        d_control row = PyStr (pct (Fin (IZR atc_c / IZR clk_c)))
        /\ d_treatment row = PyStr (pct (Fin (IZR atc_t / IZR clk_t))))
  /\ (atc_c <> 0%Z -> atc_t <> 0%Z ->
      forall row, In row table ->
        d_metric row = "purchase_rate_given_atc"%string ->
        d_control row = PyStr (pct (Fin (IZR x_c / IZR atc_c)))
        /\ d_treatment row = PyStr (pct (Fin (IZR x_t / IZR atc_t)))).
Proof.
  intros H. cbv zeta.
  destruct (run_readout_table db eid table H)
    as (_ & m1 & m2 & m3 & m4 & m5 & Hres & N1 & N2 & N3 & N4 & N5 & ->).
  destruct (metric_results_inv _ _ Hres)
    as (r1 & r2 & r3 & r4 & m1' & m2' & m3' & m4' & m5' &
        E1 & M1 & E2 & M2 & E3 & M3 & E4 & M4 & _ & _ & _ & L).
  injection L as L1 L2 L3 L4 L5. subst m1' m2' m3' m4' m5'.
  pose proof (proportion_metric_returned _ _ _ _ _ _ _ E1 M1) as R1.
  pose proof (proportion_metric_returned _ _ _ _ _ _ _ E2 M2) as R2.
  pose proof (proportion_metric_returned _ _ _ _ _ _ _ E3 M3) as R3.
  pose proof (proportion_metric_returned _ _ _ _ _ _ _ E4 M4) as R4.
  assert (F2 : filter (fun r => String.eqb (d_metric r) "ctr")
                      [format_row m3; format_row m2; format_row m4;
                       format_row m1; format_row m5] = [format_row m2])
    by (cbn [filter]; rewrite !format_row_metric, N1, N2, N3, N4, N5;
        reflexivity).
  assert (F3 : filter (fun r => String.eqb (d_metric r) "atc_rate")
                      [format_row m3; format_row m2; format_row m4;
                       format_row m1; format_row m5] = [format_row m3])
    by (cbn [filter]; rewrite !format_row_metric, N1, N2, N3, N4, N5;
        reflexivity).
  assert (F4 : filter (fun r => String.eqb (d_metric r) "purchase_rate_given_atc")
                      [format_row m3; format_row m2; format_row m4;
                       format_row m1; format_row m5] = [format_row m4])
    by (cbn [filter]; rewrite !format_row_metric, N1, N2, N3, N4, N5;
        reflexivity).
  assert (F1 : filter (fun r => String.eqb (d_metric r) "purchase_rate_per_session")
                      [format_row m3; format_row m2; format_row m4;
                       format_row m1; format_row m5] = [format_row m1])
    by (cbn [filter]; rewrite !format_row_metric, N1, N2, N3, N4, N5;
        reflexivity).
  assert (Hrow : forall (name : string) (m : MetricResult) (row : display_row),
             filter (fun r => String.eqb (d_metric r) name)
                    [format_row m3; format_row m2; format_row m4;
                     format_row m1; format_row m5] = [format_row m] ->
             In row [format_row m3; format_row m2; format_row m4;
                     format_row m1; format_row m5] ->
             d_metric row = name -> row = format_row m).
  { intros name m row Hf Hin Hname.
    assert (Hin' : In row (filter (fun r => String.eqb (d_metric r) name)
                                  [format_row m3; format_row m2; format_row m4;
                                   format_row m1; format_row m5])).
    { apply filter_In. split; [exact Hin|]. rewrite Hname. apply String.eqb_refl. }
    rewrite Hf in Hin'. destruct Hin' as [<-|[]]. reflexivity. }
  split; [rewrite F2, R2; reflexivity|].
  split; [rewrite F3, R3; reflexivity|].
  split; [rewrite F4, R4; reflexivity|].
  split; [rewrite F1, R1; reflexivity|].
  split; [|split].
  - intros Z1 Z2 row Hin Hname.
    rewrite (Hrow _ _ row F2 Hin Hname), R2.
    apply proportion_row_rates; [reflexivity | assumption | assumption].
  - intros Z1 Z2 row Hin Hname.
    rewrite (Hrow _ _ row F3 Hin Hname), R3.
    apply proportion_row_rates; [reflexivity | assumption | assumption].
  - intros Z1 Z2 row Hin Hname.
    rewrite (Hrow _ _ row F4 Hin Hname), R4.
    apply proportion_row_rates; [reflexivity | assumption | assumption].
Qed.

End ReadoutTheorems.


(** The readout of the sample warehouse returns a table. *)
Lemma sample_readout_returns (S : Stats) (T : PyText) :
  exists table, AbReadout.run_readout sample_sessions "exp_checkout_v1" = Ok table.
Proof.
  assert (V : forall x1 n1 x2 n2 : Z,
             (0 < n1)%Z -> (0 < n2)%Z -> (0 <= x1 <= n1)%Z -> (0 <= x2 <= n2)%Z ->
             exists r, AbReadout._two_proportion_ztest x1 n1 x2 n2 = Ok r)
    by (intros; eexists; apply ztest_valid; assumption).
  destruct (V 1 2 1 2)%Z as [r1 E1]; try lia.
  destruct (V 1 2 2 2)%Z as [r2 E2]; try lia.
  destruct (V 1 1 1 2)%Z as [r3 E3]; try lia.
  destruct (V 1 1 1 1)%Z as [r4 E4]; try lia.
  destruct (metric_results_returns
              (AbReadout.fetchdf sample_sessions "exp_checkout_v1") r1 r2 r3 r4
              E1 E2 E3 E4) as [res Hres].
  unfold AbReadout.run_readout.
  change (AbReadout.fetchdf sample_sessions "exp_checkout_v1")
    with (tl sample_sessions) in *.
  cbn [tl sample_sessions]. cbn [tl sample_sessions] in Hres.
  rewrite Hres. cbn [bind]. eexists. reflexivity.
Qed.

(** On the sample warehouse [run_readout] returns a table none of whose
    numeric cells is a float, and the decision rule parses the primary row's
    absolute difference from a string. *)
Lemma run_readout_raw_floats_counterexample :
  exists (db : list AbReadout.fact_session) (eid : string),
    AbReadout.fetchdf db eid <> [] /\
    forall (S : Stats) (T : PyText),
      exists table,
        AbReadout.run_readout db eid = Ok table
        /\ table <> []
        /\ (forall row, In row table ->
            forall cell, In cell (AbReadout.numeric_cells row) ->
            forall x, cell <> AbReadout.PyFloat x)
        /\ exists row s,
             GenerateReport.primary_row table = Ok row
             /\ AbReadout.d_abs_diff row = AbReadout.PyStr s
             /\ GenerateReport.py_float (AbReadout.d_abs_diff row) = float_of_str s.
Proof.
  exists sample_sessions, "exp_checkout_v1"%string.
  split; [discriminate|]. intros S T.
  destruct (sample_readout_returns S T) as [table H].
  exists table. split; [exact H|].
  destruct (run_readout_table _ _ _ H)
    as (_ & m1 & m2 & m3 & m4 & m5 & _ & N1 & N2 & N3 & N4 & N5 & ->).
  split; [discriminate|]. split.
  - intros row Hrow cell Hcell x C. cbn [In] in Hrow.
    repeat (destruct Hrow as [Hrow|Hrow];
            [subst row; destruct (format_row_strings _ _ Hcell) as [s Es];
             rewrite Es in C; discriminate|]).
    contradiction.
  - exists (AbReadout.format_row m1).
    assert (P : AbReadout.is_proportion_metric (AbReadout.metric m1) = true)
      by (rewrite N1; reflexivity).
    destruct (format_row_proportion m1 P) as (_ & _ & Ed & _).
    eexists. split; [apply primary_row_of_table; assumption|].
    split; [exact Ed|]. rewrite Ed. reflexivity.
Qed.

(** The returned table of the sample warehouse holds strings. *)
Lemma run_readout_display_strings_witness :
  exists (db : list AbReadout.fact_session) (eid : string),
    forall (S : Stats) (T : PyText),
      exists table,
        AbReadout.run_readout db eid = Ok table
        /\ forall row, In row table ->
           forall cell, In cell (AbReadout.numeric_cells row) ->
           exists s, cell = AbReadout.PyStr s.
Proof.
  exists sample_sessions, "exp_checkout_v1"%string. intros S T.
  destruct (sample_readout_returns S T) as [table H].
  exists table. split; [exact H|].
  destruct (run_readout_display_strings sample_sessions "exp_checkout_v1" table H)
    as (m1 & m2 & m3 & m4 & m5 & _ & _ & Hstr & _).
  exact Hstr.
Defined.

(** A warehouse with a pre-period session and a session of another
    experiment has no row to read. *)
Lemma run_readout_no_data_witness :
  AbReadout.fetchdf pre_period_only "exp_checkout_v1" = [] /\
  forall (S : Stats) (T : PyText),
    AbReadout.run_readout pre_period_only "exp_checkout_v1"
    = Raise (ValueError
               "No experiment-period sessions found. Check experiment_id or data.").
Proof.
  assert (H : AbReadout.fetchdf pre_period_only "exp_checkout_v1" = [])
    by reflexivity.
  split; [exact H|]. intros S T.
  exact (proj1 (run_readout_no_data pre_period_only "exp_checkout_v1" H)).
Defined.


(** The readout of the narrowing-funnel warehouse returns a table. *)
Lemma funnel_readout_returns (S : Stats) (T : PyText) :
  exists table, AbReadout.run_readout funnel_sessions "exp_checkout_v1" = Ok table.
Proof.
  assert (V : forall x1 n1 x2 n2 : Z,
             (0 < n1)%Z -> (0 < n2)%Z -> (0 <= x1 <= n1)%Z -> (0 <= x2 <= n2)%Z ->
             exists r, AbReadout._two_proportion_ztest x1 n1 x2 n2 = Ok r)
    by (intros; eexists; apply ztest_valid; assumption).
  destruct (V 1 3 1 4)%Z as [r1 E1]; try lia.
  destruct (V 1 2 2 3)%Z as [r2 E2]; try lia.
  destruct (V 1 1 1 2)%Z as [r3 E3]; try lia.
  destruct (V 1 1 1 1)%Z as [r4 E4]; try lia.
  destruct (metric_results_returns
              (AbReadout.fetchdf funnel_sessions "exp_checkout_v1") r1 r2 r3 r4
              E1 E2 E3 E4) as [res Hres].
  unfold AbReadout.run_readout.
  change (AbReadout.fetchdf funnel_sessions "exp_checkout_v1")
    with funnel_sessions in *.
  cbn [funnel_sessions]. cbn [funnel_sessions] in Hres.
  rewrite Hres. cbn [bind]. eexists. reflexivity.
Qed.

(** On the narrowing-funnel warehouse control has 3 sessions and treatment
    4, yet the ctr row is the record of 1 click over 2 impressions against
    2 over 3, and its cells show 1/2 and 2/3; the atc_rate row shows 1/1
    and 1/2. *)
Lemma run_readout_funnel_denominators_witness :
  exists (db : list AbReadout.fact_session) (eid : string),
    Z.of_nat (length (AbReadout.with_variant "control" (AbReadout.fetchdf db eid)))
    = 3%Z
    /\ Z.of_nat (length (AbReadout.with_variant "treatment"
                                                (AbReadout.fetchdf db eid)))
       = 4%Z
    /\ forall (S : Stats) (T : PyText),
      exists table,
        AbReadout.run_readout db eid = Ok table
        /\ filter (fun r => String.eqb (AbReadout.d_metric r) "ctr") table
           = [AbReadout.format_row (ReadoutSpec.proportion_row "ctr" 1 2 2 3)]
        /\ (forall row, In row table -> AbReadout.d_metric row = "ctr"%string ->
            AbReadout.d_control row
            = AbReadout.PyStr (AbReadout.pct (Fin (1 / 2)))
            /\ AbReadout.d_treatment row
               = AbReadout.PyStr (AbReadout.pct (Fin (2 / 3))))
        /\ (forall row, In row table ->
            AbReadout.d_metric row = "atc_rate"%string ->
            AbReadout.d_control row
            = AbReadout.PyStr (AbReadout.pct (Fin (1 / 1)))
            /\ AbReadout.d_treatment row
               = AbReadout.PyStr (AbReadout.pct (Fin (1 / 2)))).
Proof.
  exists funnel_sessions, "exp_checkout_v1"%string.
  split; [reflexivity|]. split; [reflexivity|]. intros S T.
  destruct (funnel_readout_returns S T) as [table H].
  destruct (run_readout_funnel_denominators
              funnel_sessions "exp_checkout_v1" table H)
    as (Fctr & _ & _ & _ & Cctr & Catc & _).
  exists table. split; [exact H|].
  split; [exact Fctr|].
  split.
  - apply Cctr; discriminate.
  - apply Catc; discriminate.
Defined.

(** The SRM theorem at an instance that meets its tail hypothesis. *)
Lemma srm_test_chi_square_witness :
  (forall x : R, 0 <= x -> @chi2_sf tail_bound_stats x 1 <= 2 * exp (- x / 2))
  /\ SrmGuardrails.chi2 (@SrmGuardrails.srm_test tail_bound_stats 6000 4000 (Fin 0.5))
     = Fin 400
  /\ exists p : R,
       SrmGuardrails.p_value
         (@SrmGuardrails.srm_test tail_bound_stats 6000 4000 (Fin 0.5)) = Fin p
       /\ p < 1e-10.
Proof.
  assert (H : forall x : R, 0 <= x ->
                            @chi2_sf tail_bound_stats x 1 <= 2 * exp (- x / 2)).
  { intros x _. cbn [chi2_sf tail_bound_stats].
    pose proof (exp_pos (- x / 2)). lra. }
  split; [exact H|].
  exact (proj2 (@srm_test_chi_square tail_bound_stats H)).
Defined.

(* ================================================================== *)
(** * Further properties of the proportion comparator                  *)
(* ================================================================== *)

Section ProportionMore.
Context {S : Stats}.
Import AbReadout ProportionSpec.

Lemma diff_swap (x1 n1 x2 n2 : Z) : diff x2 n2 x1 n1 = - diff x1 n1 x2 n2.
Proof. unfold diff. ring. Qed.

Lemma se_ci_swap (x1 n1 x2 n2 : Z) : se_ci x2 n2 x1 n1 = se_ci x1 n1 x2 n2.
Proof. unfold se_ci, se_ci_radicand. cbv zeta. f_equal. apply Rplus_comm. Qed.

Lemma se_pooled_swap (x1 n1 x2 n2 : Z) :
  se_pooled x2 n2 x1 n1 = se_pooled x1 n1 x2 n2.
Proof.
  unfold se_pooled, se_pooled_radicand. cbv zeta.
  rewrite (Z.add_comm x2 x1), (Z.add_comm n2 n1).
  f_equal. f_equal. apply Rplus_comm.
Qed.

Lemma p_value_swap (x1 n1 x2 n2 : Z) :
  p_value x2 n2 x1 n1 = p_value x1 n1 x2 n2.
Proof.
  unfold p_value. rewrite se_pooled_swap, diff_swap.
  destruct (Req_dec_T (se_pooled x1 n1 x2 n2) 0) as [E|E]; [reflexivity|].
  replace (- diff x1 n1 x2 n2 / se_pooled x1 n1 x2 n2)
    with (- (diff x1 n1 x2 n2 / se_pooled x1 n1 x2 n2))
    by (unfold Rdiv; ring).
  rewrite Rabs_Ropp. reflexivity.
Qed.

(** Valid counts, zero denominators included: the comparator returns. *)
Lemma ztest_valid_or_degenerate (x1 n1 x2 n2 : Z) :
  (0 <= x1 <= n1)%Z -> (0 <= x2 <= n2)%Z ->
  (n1 = 0%Z \/ n2 = 0%Z) \/ ((0 < n1)%Z /\ (0 < n2)%Z).
Proof. intros H1 H2. lia. Qed.

(** X1. Exchanging the two arms exchanges the two estimates, negates the
    difference, mirrors the interval and keeps the p-value. *)
Theorem two_proportion_ztest_swap (x1 n1 x2 n2 : Z) :
  (0 <= x1 <= n1)%Z -> (0 <= x2 <= n2)%Z ->
  exists p1 p2 d lo hi pv : R,
    _two_proportion_ztest x1 n1 x2 n2
    = Ok (Fin p1, Fin p2, Fin d, (Fin lo, Fin hi), Fin pv)
    /\ _two_proportion_ztest x2 n2 x1 n1
       = Ok (Fin p2, Fin p1, Fin (- d), (Fin (- hi), Fin (- lo)), Fin pv).
Proof.
  intros H1 H2.
  destruct (ztest_valid_or_degenerate x1 n1 x2 n2 H1 H2) as [D|[P1 P2]].
  - exists 0, 0, 0, 0, 0, 1.
    rewrite (ztest_degenerate x1 n1 x2 n2 D).
    rewrite (ztest_degenerate x2 n2 x1 n1) by tauto.
    rewrite Ropp_0. split; reflexivity.
  - rewrite (ztest_valid x1 n1 x2 n2 P1 P2 H1 H2).
    rewrite (ztest_valid x2 n2 x1 n1 P2 P1 H2 H1).
    rewrite (p_value_swap x1 n1 x2 n2), (se_ci_swap x1 n1 x2 n2),
      (diff_swap x1 n1 x2 n2).
    do 6 eexists. split; [reflexivity|].
    replace (- (diff x1 n1 x2 n2 + norm_ppf 0.975 * se_ci x1 n1 x2 n2))
      with (- diff x1 n1 x2 n2 - norm_ppf 0.975 * se_ci x1 n1 x2 n2) by ring.
    replace (- (diff x1 n1 x2 n2 - norm_ppf 0.975 * se_ci x1 n1 x2 n2))
      with (- diff x1 n1 x2 n2 + norm_ppf 0.975 * se_ci x1 n1 x2 n2) by ring.
    reflexivity.
Qed.

(** X2. On valid counts both estimates lie in [0, 1], the difference in
    [-1, 1], and the interval is centred on the difference; it contains the
    difference when the normal quantile the library returns is not
    negative. *)
Theorem two_proportion_ztest_ranges (x1 n1 x2 n2 : Z) :
  (0 <= x1 <= n1)%Z -> (0 <= x2 <= n2)%Z ->
  exists p1 p2 d lo hi pv : R,
    _two_proportion_ztest x1 n1 x2 n2
    = Ok (Fin p1, Fin p2, Fin d, (Fin lo, Fin hi), Fin pv)
    /\ 0 <= p1 <= 1 /\ 0 <= p2 <= 1 /\ -1 <= d <= 1
    /\ hi - d = d - lo
    /\ (0 <= norm_ppf 0.975 -> lo <= d <= hi).
Proof.
  intros H1 H2.
  destruct (ztest_valid_or_degenerate x1 n1 x2 n2 H1 H2) as [D|[P1 P2]].
  - exists 0, 0, 0, 0, 0, 1. rewrite (ztest_degenerate x1 n1 x2 n2 D).
    repeat split; lra.
  - rewrite (ztest_valid x1 n1 x2 n2 P1 P2 H1 H2).
    do 6 eexists. split; [reflexivity|].
    pose proof (ratio_in_unit x1 n1 H1 P1) as R1.
    pose proof (ratio_in_unit x2 n2 H2 P2) as R2.
    pose proof (sqrt_pos (se_ci_radicand x1 n1 x2 n2)) as Hs.
    fold (se_ci x1 n1 x2 n2) in Hs.
    unfold diff.
    repeat split; try lra;
      match goal with
      | Hz : 0 <= norm_ppf _ |- _ => pose proof (Rmult_le_pos _ _ Hz Hs); lra
      end.
Qed.


End ProportionMore.

(* ================================================================== *)
(** * Further properties of the Welch comparator                       *)
(* ================================================================== *)

Section WelchMore.
Context {S : Stats}.

(** With two observations or more in each sample, [_two_sample_ttest]
    takes one of its last two returns, by the standard error. *)
Lemma two_sample_ttest_long (la lb : list R) :
  (2 <= length la)%nat -> (2 <= length lb)%nat ->
  let d := mean_R lb - mean_R la in
  let se := WelchSpec.se la lb in
  let t := t_ppf 0.975 (WelchSpec.df (var_R la) (length la) (var_R lb) (length lb)) in
  AbReadout._two_sample_ttest (to_numpy la) (to_numpy lb)
  = if Req_dec_T se 0 then Ok (Fin d, (Fin d, Fin d), Fin 1)
    else Ok (Fin d, (Fin (d - t * se), Fin (d + t * se)),
             ttest_ind_welch_pvalue (to_numpy lb) (to_numpy la)).
Proof.
  intros Ha Hb. cbv zeta. unfold WelchSpec.se.
  pose proof (welch_df_float (var_R la) (var_R lb) (length la) (length lb) Ha Hb)
    as Hdf.
  cbv zeta in Hdf.
  unfold AbReadout._two_sample_ttest.
  replace ((length (to_numpy la) <? 2)%nat || (length (to_numpy lb) <? 2)%nat)%bool
    with false
    by (symmetry; rewrite !to_numpy_length; apply orb_false_intro;
        apply Nat.ltb_ge; assumption).
  cbv zeta.
  rewrite welch_radicand_finite by assumption.
  rewrite math_sqrt_nonneg by (apply welch_radicand_nonneg; assumption).
  cbn [bind F.eq].
  rewrite np_mean_diff_finite by assumption.
  destruct (Req_dec_T _ 0) as [E|E].
  - rewrite Reqb'_true by exact E. reflexivity.
  - rewrite Reqb'_false by exact E.
    rewrite !np_var_to_numpy, !to_numpy_length by assumption.
    rewrite Hdf. reflexivity.
Qed.

(** The same for [welch_ttest_ci]. *)
Lemma welch_ttest_ci_long (la lb : list R) :
  (2 <= length la)%nat -> (2 <= length lb)%nat ->
  let d := mean_R lb - mean_R la in
  let se := WelchSpec.se la lb in
  let t := t_ppf 0.975 (WelchSpec.df (var_R la) (length la) (var_R lb) (length lb)) in
  Cuped.welch_ttest_ci (to_numpy la) (to_numpy lb)
  = if Req_dec_T se 0 then Ok (Fin d, Fin d, Fin d, Fin 1)
    else Ok (Fin d, Fin (d - t * se), Fin (d + t * se),
             ttest_ind_welch_pvalue (to_numpy lb) (to_numpy la)).
Proof.
  intros Ha Hb. cbv zeta. unfold WelchSpec.se.
  pose proof (welch_df_float (var_R la) (var_R lb) (length la) (length lb) Ha Hb)
    as Hdf.
  cbv zeta in Hdf.
  unfold Cuped.welch_ttest_ci. cbv zeta.
  rewrite welch_radicand_finite by assumption.
  rewrite math_sqrt_nonneg by (apply welch_radicand_nonneg; assumption).
  cbn [bind F.eq].
  replace ((length (to_numpy la) <? 2)%nat) with false
    by (symmetry; rewrite to_numpy_length; apply Nat.ltb_ge; assumption).
  replace ((length (to_numpy lb) <? 2)%nat) with false
    by (symmetry; rewrite to_numpy_length; apply Nat.ltb_ge; assumption).
  rewrite !orb_false_r.
  rewrite np_mean_diff_finite by assumption.
  destruct (Req_dec_T _ 0) as [E|E].
  - rewrite Reqb'_true by exact E. reflexivity.
  - rewrite Reqb'_false by exact E.
    rewrite !np_var_to_numpy, !to_numpy_length by assumption.
    rewrite Hdf. reflexivity.
Qed.

Lemma welch_diff_component (a b : ndarray)
    (r : float64 * float64 * float64 * float64) :
  Cuped.welch_ttest_ci a b = Ok r ->
  fst (fst (fst r)) = (np_mean b - np_mean a)%fl.
Proof.
  unfold Cuped.welch_ttest_ci. intros H.
  apply bind_ok_inv in H. destruct H as (se & _ & H).
  destruct (_ || _ || _)%bool; injection H as <-; reflexivity.
Qed.

(** X5. On finite samples of any length, empty ones included, neither call
    site raises: the argument of [math.sqrt] is never negative.  The first
    component [welch_ttest_ci] returns is always mean(b) - mean(a). *)
Theorem welch_never_faults (la lb : list R) :
  (exists r, AbReadout._two_sample_ttest (to_numpy la) (to_numpy lb) = Ok r)
  /\ (exists r,
        Cuped.welch_ttest_ci (to_numpy la) (to_numpy lb) = Ok r
        /\ fst (fst (fst r)) = (np_mean (to_numpy lb) - np_mean (to_numpy la))%fl).
Proof.
  split.
  - destruct (@two_sample_ttest_total S la lb) as [r H]. exists r. exact H.
  - destruct (welch_ttest_ci_total la lb) as [r H]. exists r.
    split; [exact H | exact (welch_diff_component _ _ _ H)].
Qed.

Lemma welch_se_swap (la lb : list R) : WelchSpec.se lb la = WelchSpec.se la lb.
Proof. unfold WelchSpec.se. f_equal. apply Rplus_comm. Qed.

Lemma welch_df_swap (va vb : R) (na nb : nat) :
  WelchSpec.df vb nb va na = WelchSpec.df va na vb nb.
Proof.
  unfold WelchSpec.df. cbv zeta.
  rewrite (Rplus_comm (vb * vb / _)), (Rplus_comm (vb / INR nb)).
  destruct (Rlt_dec 0 _); [reflexivity | ring].
Qed.

(** X6. Exchanging the two samples (two observations or more each) negates
    the difference and mirrors the interval, at both call sites; the
    critical value and the standard error are the same. *)
Theorem welch_swap (la lb : list R) :
  (2 <= length la)%nat -> (2 <= length lb)%nat ->
  exists (d lo hi : R) (p p' : float64),
    AbReadout._two_sample_ttest (to_numpy la) (to_numpy lb)
    = Ok (Fin d, (Fin lo, Fin hi), p)
    /\ AbReadout._two_sample_ttest (to_numpy lb) (to_numpy la)
       = Ok (Fin (- d), (Fin (- hi), Fin (- lo)), p')
    /\ Cuped.welch_ttest_ci (to_numpy la) (to_numpy lb)
       = Ok (Fin d, Fin lo, Fin hi, p)
    /\ Cuped.welch_ttest_ci (to_numpy lb) (to_numpy la)
       = Ok (Fin (- d), Fin (- hi), Fin (- lo), p')
    /\ hi - d = d - lo.
Proof.
  intros Ha Hb.
  rewrite (two_sample_ttest_long la lb Ha Hb), (welch_ttest_ci_long la lb Ha Hb).
  rewrite (two_sample_ttest_long lb la Hb Ha), (welch_ttest_ci_long lb la Hb Ha).
  rewrite (welch_se_swap la lb), (welch_df_swap (var_R la) (var_R lb)).
  set (d := mean_R lb - mean_R la).
  replace (mean_R la - mean_R lb) with (- d) by (unfold d; ring).
  set (se := WelchSpec.se la lb).
  set (t := t_ppf 0.975 _).
  destruct (Req_dec_T se 0) as [E|E].
  - exists d, d, d, (Fin 1), (Fin 1). repeat split; reflexivity.
  - exists d, (d - t * se), (d + t * se).
    do 2 eexists.
    replace (- (d + t * se)) with (- d - t * se) by ring.
    replace (- (d - t * se)) with (- d + t * se) by ring.
    repeat split; try reflexivity; ring.
Qed.

End WelchMore.

(* ================================================================== *)
(** * Further properties of the CUPED adjuster                         *)
(* ================================================================== *)

Lemma sum_R_adjusted (m th : R) (ly lx : list R) :
  length ly = length lx ->
  sum_R (map (fun p => fst p - th * (snd p - m)) (combine ly lx))
  = sum_R ly - th * (sum_R lx - INR (length lx) * m).
Proof.
  unfold sum_R. revert lx.
  induction ly as [|a ly IH]; intros [|b lx] Hl; try discriminate.
  - simpl. ring.
  - cbn [combine map fold_right fst snd length]. rewrite S_INR.
    rewrite IH by (simpl in Hl; lia). ring.
Qed.

Lemma mean_R_adjusted (th : R) (ly lx : list R) :
  length ly = length lx -> lx <> [] ->
  mean_R (adjusted_R th ly lx) = mean_R ly.
Proof.
  intros Hl Hne. unfold mean_R at 1.
  rewrite adjusted_R_length by exact Hl.
  unfold adjusted_R. rewrite sum_R_adjusted by exact Hl.
  assert (Hn : INR (length lx) <> 0)
    by (apply not_0_INR; destruct lx; [congruence | simpl; lia]).
  unfold mean_R. rewrite Hl. field. exact Hn.
Qed.

Section CupedMore.
Context {S : Stats}.

(** What a returned report holds, block by block. *)
Lemma main_inv (df : list Cuped.user_row) (r : Cuped.cuped_report) :
  Cuped.main df = Ok r ->
  let y := to_numpy (map Cuped.y_rev df) in
  let x := to_numpy (map Cuped.x_pre_rev df) in
  exists th : R,
    Cuped.cuped_theta y x = Ok (Fin th)
    /\ Cuped.theta r = Fin th
    /\ Cuped.y_cuped r = Cuped.cuped_adjusted (Fin th) y x
    /\ Cuped.welch_ttest_ci (Cuped.split "control" df y)
                            (Cuped.split "treatment" df y)
       = Ok (Cuped.raw_stats r)
    /\ Cuped.welch_ttest_ci (Cuped.split "control" df (Cuped.y_cuped r))
                            (Cuped.split "treatment" df (Cuped.y_cuped r))
       = Ok (Cuped.cup_stats r)
    /\ Cuped.variance_reduction y (Cuped.y_cuped r) = Ok (Cuped.var_red r).
Proof.
  cbv zeta. unfold Cuped.main. intros H.
  destruct (cuped_theta_cases (map Cuped.y_rev df) (map Cuped.x_pre_rev df))
    as (th & Hth & _); [now rewrite !length_map|].
  rewrite Hth in H. cbn [bind] in H.
  apply bind_ok_inv in H. destruct H as (raw & Hraw & H).
  apply bind_ok_inv in H. destruct H as (cup & Hcup & H).
  apply bind_ok_inv in H. destruct H as (vr & Hvr & H).
  injection H as <-. cbn [Cuped.theta Cuped.y_cuped Cuped.var_red
                          Cuped.raw_stats Cuped.cup_stats].
  exists th. repeat split; assumption.
Qed.

(** X7. The adjustment keeps the overall mean: the adjusted column has the
    mean of the raw one, for every theta and every frame, since the
    covariate is centred on its own mean. *)
Theorem cuped_preserves_mean :
  (forall (th : R) (ly lx : list R),
      length ly = length lx ->
      np_mean (Cuped.cuped_adjusted (Fin th) (to_numpy ly) (to_numpy lx))
      = np_mean (to_numpy ly))
  /\ (forall (df : list Cuped.user_row) (r : Cuped.cuped_report),
         Cuped.main df = Ok r ->
         np_mean (Cuped.y_cuped r) = np_mean (to_numpy (map Cuped.y_rev df))).
Proof.
  assert (A : forall (th : R) (ly lx : list R),
             length ly = length lx ->
             np_mean (Cuped.cuped_adjusted (Fin th) (to_numpy ly) (to_numpy lx))
             = np_mean (to_numpy ly)).
  { intros th ly lx Hl. rewrite cuped_adjusted_to_numpy.
    destruct lx as [|b lx].
    - destruct ly; [reflexivity | discriminate].
    - assert (Hy : ly <> []) by (intro E; subst; discriminate).
      assert (Ha : adjusted_R th ly (b :: lx) <> []).
      { intro E. apply (f_equal (@length R)) in E.
        rewrite adjusted_R_length in E by exact Hl.
        destruct ly; [congruence | discriminate]. }
      rewrite !np_mean_to_numpy by assumption.
      rewrite mean_R_adjusted by (assumption || discriminate). reflexivity. }
  split; [exact A|].
  intros df r H. destruct (main_inv df r H) as (th & _ & _ & -> & _).
  apply A. now rewrite !length_map.
Qed.

End CupedMore.

Lemma combine_map_frame {A : Type} (f g : A -> R) (l : list A) :
  combine (map f l) (map g l) = map (fun u => (f u, g u)) l.
Proof. induction l as [|u l IH]; simpl; [reflexivity | now rewrite IH]. Qed.

Lemma adjusted_R_frame {A : Type} (th : R) (f g : A -> R) (l : list A) :
  adjusted_R th (map f l) (map g l)
  = map (fun u => f u - th * (g u - mean_R (map g l))) l.
Proof.
  unfold adjusted_R. rewrite combine_map_frame, map_map. reflexivity.
Qed.

Lemma split_column (v : string) (df : list Cuped.user_row)
    (h : Cuped.user_row -> R) :
  map snd (filter (fun p => String.eqb (Cuped.variant (fst p)) v)
                  (combine df (map h df)))
  = map h (filter (fun u => String.eqb (Cuped.variant u) v) df).
Proof.
  assert (G : forall l : list Cuped.user_row,
             map snd (filter (fun p : Cuped.user_row * R =>
                                String.eqb (Cuped.variant (fst p)) v)
                             (combine l (map h l)))
             = map h (filter (fun u => String.eqb (Cuped.variant u) v) l)).
  { induction l as [|u l IH]; [reflexivity|].
    cbn [map combine filter fst].
    destruct (String.eqb (Cuped.variant u) v); cbn [map snd]; now rewrite IH. }
  apply G.
Qed.

Lemma mean_R_adjusted_group {A : Type} (th m : R) (f g : A -> R) (l : list A) :
  l <> [] ->
  mean_R (map (fun u => f u - th * (g u - m)) l)
  = mean_R (map f l) - th * (mean_R (map g l) - m).
Proof.
  intros Hne.
  assert (Hs : sum_R (map (fun u => f u - th * (g u - m)) l)
               = sum_R (map f l) - th * (sum_R (map g l) - INR (length l) * m)).
  { rewrite <- (length_map g l).
    rewrite <- (sum_R_adjusted m th (map f l) (map g l))
      by now rewrite !length_map.
    rewrite combine_map_frame, map_map. reflexivity. }
  unfold mean_R. rewrite Hs, !length_map.
  field. apply not_0_INR. destruct l; [congruence | simpl; lia].
Qed.

Section CupedEffect.
Context {S : Stats}.

(** X9. With both variants present, the CUPED effect estimate is the raw
    difference of means less theta times the difference of the covariate
    means between treatment and control. *)
Theorem cuped_effect_decomposition (df : list Cuped.user_row)
    (r : Cuped.cuped_report) :
  Cuped.main df = Ok r ->
  let c := filter (fun u => String.eqb (Cuped.variant u) "control") df in
  let t := filter (fun u => String.eqb (Cuped.variant u) "treatment") df in
  c <> [] -> t <> [] ->
  exists th : R,
    Cuped.theta r = Fin th
    /\ fst (fst (fst (Cuped.raw_stats r)))
       = Fin (mean_R (map Cuped.y_rev t) - mean_R (map Cuped.y_rev c))
    /\ fst (fst (fst (Cuped.cup_stats r)))
       = Fin ((mean_R (map Cuped.y_rev t) - mean_R (map Cuped.y_rev c))
              - th * (mean_R (map Cuped.x_pre_rev t)
                      - mean_R (map Cuped.x_pre_rev c))).
Proof.
  intros H. cbv zeta. intros Hc Ht.
  destruct (main_inv df r H) as (th & _ & Eth & Eyc & Hraw & Hcup & _).
  exists th. split; [exact Eth|].
  assert (Nm : forall (h : Cuped.user_row -> R) (l : list Cuped.user_row),
             l <> [] -> map h l <> [])
    by (intros h [|u l] Hl; [congruence | discriminate]).
  split.
  - rewrite (welch_diff_component _ _ _ Hraw).
    rewrite !split_to_numpy, !split_column.
    rewrite !np_mean_to_numpy by (apply Nm; assumption).
    reflexivity.
  - rewrite (welch_diff_component _ _ _ Hcup).
    rewrite Eyc, cuped_adjusted_to_numpy, adjusted_R_frame.
    rewrite !split_to_numpy.
    rewrite !(split_column _ df
                (fun u => Cuped.y_rev u
                          - th * (Cuped.x_pre_rev u
                                  - mean_R (map Cuped.x_pre_rev df)))).
    rewrite !np_mean_to_numpy by (apply Nm; assumption).
    rewrite !mean_R_adjusted_group by assumption.
    cbn [F.sub]. f_equal. ring.
Qed.

End CupedEffect.

(* ================================================================== *)
(** * Further properties of the SRM checker                            *)
(* ================================================================== *)

Lemma F_add_comm (x y : float64) : (x + y)%fl = (y + x)%fl.
Proof. destruct x, y; cbn; try reflexivity. f_equal. ring. Qed.

Lemma F_add_0_r (x : float64) : (x + Fin 0)%fl = x.
Proof. destruct x; cbn; [f_equal; ring | reflexivity]. Qed.

Section SrmMore.
Context {S : Stats}.
Import SrmGuardrails.

(** X10. With a share strictly between 0 and 1 and at least one unit, the
    statistic is (n_treatment - total*share)^2 / (total*share*(1-share)):
    it is never negative, and it is 0 exactly when the treatment count is
    the expected one. *)
Theorem srm_chi2_closed_form (n_c n_t : Z) (s : R) :
  0 < s < 1 -> (0 < n_c + n_t)%Z ->
  let total := IZR (n_c + n_t) in
  let stat := (IZR n_t - total * s) * (IZR n_t - total * s)
              / (total * s * (1 - s)) in
  chi2 (srm_test n_c n_t (Fin s)) = Fin stat
  /\ p_value (srm_test n_c n_t (Fin s)) = Fin (chi2_sf stat 1)
  /\ 0 <= stat
  /\ (stat = 0 <-> IZR n_t = total * s).
Proof.
  intros Hs Hn. cbv zeta.
  assert (HN : 0 < IZR (n_c + n_t)) by (apply (IZR_lt 0); exact Hn).
  assert (Hc : IZR (n_c + n_t) * (1 - s) <> 0) by nra.
  assert (Ht : IZR (n_c + n_t) * s <> 0) by nra.
  destruct (srm_test_statistic n_c n_t s Hc Ht) as [E1 E2].
  assert (Hsum :
    (IZR n_c - IZR (n_c + n_t) * (1 - s)) * (IZR n_c - IZR (n_c + n_t) * (1 - s))
    / (IZR (n_c + n_t) * (1 - s))
    + (IZR n_t - IZR (n_c + n_t) * s) * (IZR n_t - IZR (n_c + n_t) * s)
      / (IZR (n_c + n_t) * s)
    = (IZR n_t - IZR (n_c + n_t) * s) * (IZR n_t - IZR (n_c + n_t) * s)
      / (IZR (n_c + n_t) * s * (1 - s))).
  { rewrite plus_IZR in *. field. repeat split; lra. }
  rewrite Hsum in E1, E2.
  split; [exact E1|]. split; [exact E2|].
  assert (HD : 0 < IZR (n_c + n_t) * s * (1 - s))
    by (apply Rmult_lt_0_compat; [apply Rmult_lt_0_compat|]; lra).
  split.
  - apply Rmult_le_pos; [apply Rle_0_sqr|].
    apply Rlt_le, Rinv_0_lt_compat, HD.
  - split.
    + intros E0.
      assert (Hsq : (IZR n_t - IZR (n_c + n_t) * s)
                    * (IZR n_t - IZR (n_c + n_t) * s) = 0).
      { apply Rmult_eq_reg_r with (r := / (IZR (n_c + n_t) * s * (1 - s))).
        - rewrite Rmult_0_l. exact E0.
        - apply Rinv_neq_0_compat. lra. }
      apply Rmult_integral in Hsq. lra.
    + intros E0. rewrite E0. unfold Rdiv. ring.
Qed.

(** X11. The check does not depend on which arm is called treatment:
    exchanging the two counts and replacing the share by its complement
    gives the same statistic and the same p-value, whatever the counts. *)
Theorem srm_test_swap (n_c n_t : Z) (s : R) :
  chi2 (srm_test n_t n_c (Fin (1 - s))) = chi2 (srm_test n_c n_t (Fin s))
  /\ p_value (srm_test n_t n_c (Fin (1 - s))) = p_value (srm_test n_c n_t (Fin s)).
Proof.
  unfold srm_test, chisquare, F.of_Z.
  cbn [F.mul F.sub combine map fst snd F.sqr np_sum fold_right length
       chi2 p_value].
  rewrite (Z.add_comm n_t n_c).
  replace (1 - (1 - s)) with s by ring.
  rewrite !F_add_0_r.
  rewrite (F_add_comm (F.np_div _ (Fin (IZR (n_c + n_t) * s)))).
  split; reflexivity.
Qed.

End SrmMore.

Section SrmReportFacts.
Context {S : Stats}.
Import SrmGuardrails SrmReport.

Lemma get_count_missing (df : list count_row) (label : string) :
  (forall r, In r df -> cr_variant r <> label) -> get_count df label = 0%Z.
Proof.
  intros H. unfold get_count.
  destruct (filter _ df) as [|r rest] eqn:E; [reflexivity|].
  assert (Hin : In r (filter (fun r => String.eqb (cr_variant r) label) df))
    by (rewrite E; now left).
  apply filter_In in Hin. destruct Hin as [Hin Heq].
  apply String.eqb_eq in Heq. exfalso. exact (H r Hin Heq).
Qed.

(** X12. When the counts frame has a row for neither variant (an unknown
    experiment, say), both counts are read as 0, the statistic and the
    p-value are NaN, and the report flags an SRM: the test [p >= 0.01]
    is false on NaN. *)
Theorem srm_of_missing_variants (df : list count_row) (s : R) :
  (forall r, In r df ->
             cr_variant r <> "control"%string /\ cr_variant r <> "treatment"%string) ->
  n_control (srm_of_counts df (Fin s)) = 0%Z
  /\ n_treatment (srm_of_counts df (Fin s)) = 0%Z
  /\ chi2 (srm_of_counts df (Fin s)) = NaN
  /\ p_value (srm_of_counts df (Fin s)) = NaN
  /\ flag_ok (srm_of_counts df (Fin s)) = false.
Proof.
  intros H. unfold flag_ok, srm_of_counts.
  rewrite (get_count_missing df "control") by (intros r Hr; apply (H r Hr)).
  rewrite (get_count_missing df "treatment") by (intros r Hr; apply (H r Hr)).
  unfold srm_test, chisquare, F.of_Z.
  cbn [F.mul F.sub combine map fst snd F.sqr np_sum fold_right length
       chi2 p_value n_control n_treatment Z.add].
  replace (0 * (1 - s)) with 0 by ring.
  replace (0 * s) with 0 by ring.
  rewrite !np_div_zero. cbn. repeat split; reflexivity.
Qed.

End SrmReportFacts.

(* ================================================================== *)
(** * Further properties of the readout and of the decision rule       *)
(* ================================================================== *)

Lemma col_sum_bounds (f g : AbReadout.fact_session -> Z)
    (l : list AbReadout.fact_session) :
  (forall r, In r l -> (f r <= g r)%Z) ->
  (AbReadout.col_sum f l <= AbReadout.col_sum g l)%Z.
Proof.
  unfold AbReadout.col_sum. induction l as [|r l IH]; intros H; simpl; [lia|].
  pose proof (H r (or_introl eq_refl)).
  assert (fold_right Z.add 0 (map f l) <= fold_right Z.add 0 (map g l))%Z
    by (apply IH; intros; apply H; now right).
  lia.
Qed.

Lemma col_sum_const (c : Z) (l : list AbReadout.fact_session) :
  AbReadout.col_sum (fun _ => c) l = (c * Z.of_nat (length l))%Z.
Proof.
  unfold AbReadout.col_sum. induction l as [|r l IH]; [simpl; lia|].
  cbn [map fold_right length]. rewrite IH. lia.
Qed.

(** On a frame of funnel-consistent sessions the counts are nested:
    0 <= purchases <= add-to-carts <= clicks <= impressions <= sessions. *)
Lemma funnel_counts_nested (l : list AbReadout.fact_session) :
  (forall r, In r l -> funnel_consistent r) ->
  (0 <= AbReadout.col_sum AbReadout.has_purchase l
     <= AbReadout.col_sum AbReadout.has_add_to_cart l)%Z
  /\ (AbReadout.col_sum AbReadout.has_add_to_cart l
      <= AbReadout.col_sum AbReadout.has_click l)%Z
  /\ (AbReadout.col_sum AbReadout.has_click l
      <= AbReadout.col_sum AbReadout.has_impression l)%Z
  /\ (AbReadout.col_sum AbReadout.has_impression l <= Z.of_nat (length l))%Z.
Proof.
  intros H.
  assert (Z0 : (0 <= AbReadout.col_sum AbReadout.has_purchase l)%Z).
  { pose proof (col_sum_bounds (fun _ => 0%Z) AbReadout.has_purchase l) as B.
    rewrite col_sum_const in B. simpl in B. apply B.
    intros r Hr. destruct (H r Hr) as ([? ?] & _). assumption. }
  assert (Z1 : (AbReadout.col_sum AbReadout.has_impression l
                <= Z.of_nat (length l))%Z).
  { pose proof (col_sum_bounds AbReadout.has_impression (fun _ => 1%Z) l) as B.
    rewrite col_sum_const in B. rewrite Z.mul_1_l in B. apply B.
    intros r Hr. destruct (H r Hr) as (_ & _ & _ & ?). assumption. }
  repeat split; try assumption;
    apply col_sum_bounds; intros r Hr; destruct (H r Hr) as ([? ?] & ? & ? & ?);
      assumption.
Qed.

Section ReadoutMore.
Context {S : Stats} {T : PyText}.
Import AbReadout GenerateReport.

Lemma ztest_returns_on_valid (x1 n1 x2 n2 : Z) :
  (0 <= x1 <= n1)%Z -> (0 <= x2 <= n2)%Z ->
  exists r, _two_proportion_ztest x1 n1 x2 n2 = Ok r.
Proof.
  intros H1 H2.
  destruct (ztest_valid_or_degenerate x1 n1 x2 n2 H1 H2) as [D|[P1 P2]].
  - eexists. apply ztest_degenerate. exact D.
  - eexists. apply ztest_valid; assumption.
Qed.

(** X14. On funnel-consistent sessions (flags 0 or 1, each stage implying
    the one before) [run_readout] returns its table of five rows: no
    proportion test can fault. *)
Theorem run_readout_returns_on_consistent_funnel
    (db : list fact_session) (eid : string) :
  fetchdf db eid <> [] ->
  (forall r, In r (fetchdf db eid) -> funnel_consistent r) ->
  exists table, run_readout db eid = Ok table /\ length table = 5%nat.
Proof.
  intros Hne Hall.
  assert (Hv : forall v r, In r (with_variant v (fetchdf db eid)) ->
                           funnel_consistent r).
  { intros v r Hr. apply Hall. unfold with_variant in Hr.
    apply filter_In in Hr. tauto. }
  pose proof (funnel_counts_nested _ (Hv "control"%string))
    as ([C0 C1] & C2 & C3 & C4).
  pose proof (funnel_counts_nested _ (Hv "treatment"%string))
    as ([T0 T1] & T2 & T3 & T4).
  destruct (ztest_returns_on_valid
              (col_sum has_purchase (with_variant "control" (fetchdf db eid)))
              (Z.of_nat (length (with_variant "control" (fetchdf db eid))))
              (col_sum has_purchase (with_variant "treatment" (fetchdf db eid)))
              (Z.of_nat (length (with_variant "treatment" (fetchdf db eid)))))
    as [r1 E1]; try lia.
  destruct (ztest_returns_on_valid
              (col_sum has_click (with_variant "control" (fetchdf db eid)))
              (col_sum has_impression (with_variant "control" (fetchdf db eid)))
              (col_sum has_click (with_variant "treatment" (fetchdf db eid)))
              (col_sum has_impression (with_variant "treatment" (fetchdf db eid))))
    as [r2 E2]; try lia.
  destruct (ztest_returns_on_valid
              (col_sum has_add_to_cart (with_variant "control" (fetchdf db eid)))
              (col_sum has_click (with_variant "control" (fetchdf db eid)))
              (col_sum has_add_to_cart (with_variant "treatment" (fetchdf db eid)))
              (col_sum has_click (with_variant "treatment" (fetchdf db eid))))
    as [r3 E3]; try lia.
  destruct (ztest_returns_on_valid
              (col_sum has_purchase (with_variant "control" (fetchdf db eid)))
              (col_sum has_add_to_cart (with_variant "control" (fetchdf db eid)))
              (col_sum has_purchase (with_variant "treatment" (fetchdf db eid)))
              (col_sum has_add_to_cart (with_variant "treatment" (fetchdf db eid))))
    as [r4 E4]; try lia.
  destruct (metric_results_returns (fetchdf db eid) r1 r2 r3 r4 E1 E2 E3 E4)
    as [res Hres].
  assert (Hrun : run_readout db eid
                 = Ok (sort_values_metric (map format_row res))).
  { unfold run_readout. destruct (fetchdf db eid); [congruence|].
    rewrite Hres. reflexivity. }
  eexists. split; [exact Hrun|].
  destruct (run_readout_table db eid _ Hrun)
    as (_ & m1 & m2 & m3 & m4 & m5 & _ & _ & _ & _ & _ & _ & ->).
  reflexivity.
Qed.

End ReadoutMore.

Lemma rel_diff_of_zero_control (d : float64) :
  AbReadout.rel_diff_of d (Fin 0) = Ok NaN.
Proof.
  unfold AbReadout.rel_diff_of. cbn [F.gt]. unfold Rgtb.
  destruct (Rlt_dec 0 0); [lra | reflexivity].
Qed.

Lemma overcount_term_negative (x n : Z) :
  (0 < n)%Z -> (n < x)%Z ->
  IZR x / IZR n * (1 - IZR x / IZR n) / IZR n < 0.
Proof.
  intros Hn Hx. apply IZR_lt in Hn. apply IZR_lt in Hx.
  assert (Hi : 0 < / IZR n) by (apply Rinv_0_lt_compat; exact Hn).
  assert (Hp : 1 < IZR x / IZR n).
  { apply Rmult_lt_reg_r with (r := IZR n); [exact Hn|].
    unfold Rdiv. rewrite Rmult_assoc, Rinv_l by lra. lra. }
  assert (Hq : IZR x / IZR n * (1 - IZR x / IZR n) < 0) by nra.
  unfold Rdiv at 1. nra.
Qed.

Section ReadoutEdges.
Context {S : Stats} {T : PyText}.
Import AbReadout GenerateReport.

Lemma zero_metric (name : string) :
  proportion_metric name (Fin 0, Fin 0, Fin 0, (Fin 0, Fin 0), Fin 1)
  = Ok {| metric := name; control := Fin 0; treatment := Fin 0;
          abs_diff := Fin 0; rel_diff := NaN; ci_low := Fin 0;
          ci_high := Fin 0; p_value := Fin 1 |}.
Proof.
  unfold proportion_metric. rewrite rel_diff_of_zero_control. reflexivity.
Qed.

(** X13. When the fetched sessions hold no control row or no treatment row,
    [run_readout] still returns a table, and it reports no signal: all five
    metrics have difference 0, interval (0, 0) and p-value 1; the four
    proportion rows have both estimates 0 and an undefined relative
    difference, shown as "NA". *)
Theorem run_readout_with_empty_arm (db : list fact_session) (eid : string) :
  fetchdf db eid <> [] ->
  with_variant "control" (fetchdf db eid) = []
  \/ with_variant "treatment" (fetchdf db eid) = [] ->
  exists (m1 m2 m3 m4 m5 : MetricResult) (table : list display_row),
    metric_results (fetchdf db eid) = Ok [m1; m2; m3; m4; m5]
    /\ run_readout db eid = Ok table
    /\ (forall m, In m [m1; m2; m3; m4; m5] ->
        abs_diff m = Fin 0 /\ ci_low m = Fin 0 /\ ci_high m = Fin 0
        /\ p_value m = Fin 1)
    /\ (forall m, In m [m1; m2; m3; m4] ->
        control m = Fin 0 /\ treatment m = Fin 0 /\ rel_diff m = NaN
        /\ d_rel_diff (format_row m) = PyStr "NA").
Proof.
  intros Hne Harm.
  assert (Hz : forall x1 n1 x2 n2 : Z,
             n1 = 0%Z \/ n2 = 0%Z ->
             _two_proportion_ztest x1 n1 x2 n2
             = Ok (Fin 0, Fin 0, Fin 0, (Fin 0, Fin 0), Fin 1))
    by (intros; now apply ztest_degenerate).
  assert (Hlen : forall v, with_variant v (fetchdf db eid) = [] ->
                 forall f, col_sum f (with_variant v (fetchdf db eid)) = 0%Z
                           /\ Z.of_nat (length (with_variant v (fetchdf db eid))) = 0%Z)
    by (intros v -> f; split; reflexivity).
  assert (Hshort : _two_sample_ttest
                     (to_numpy (map revenue (with_variant "control" (fetchdf db eid))))
                     (to_numpy (map revenue (with_variant "treatment" (fetchdf db eid))))
                   = Ok (Fin 0, (Fin 0, Fin 0), Fin 1)).
  { apply two_sample_ttest_short.
    destruct Harm as [E|E]; [left | right]; rewrite E; simpl; lia. }
  assert (Hres : exists rd,
             metric_results (fetchdf db eid)
             = Ok [ {| metric := "purchase_rate_per_session"; control := Fin 0;
                       treatment := Fin 0; abs_diff := Fin 0; rel_diff := NaN;
                       ci_low := Fin 0; ci_high := Fin 0; p_value := Fin 1 |};
                    {| metric := "ctr"; control := Fin 0;
                       treatment := Fin 0; abs_diff := Fin 0; rel_diff := NaN;
                       ci_low := Fin 0; ci_high := Fin 0; p_value := Fin 1 |};
                    {| metric := "atc_rate"; control := Fin 0;
                       treatment := Fin 0; abs_diff := Fin 0; rel_diff := NaN;
                       ci_low := Fin 0; ci_high := Fin 0; p_value := Fin 1 |};
                    {| metric := "purchase_rate_given_atc"; control := Fin 0;
                       treatment := Fin 0; abs_diff := Fin 0; rel_diff := NaN;
                       ci_low := Fin 0; ci_high := Fin 0; p_value := Fin 1 |};
                    {| metric := "revenue_per_session";
                       control := np_mean (to_numpy (map revenue
                                    (with_variant "control" (fetchdf db eid))));
                       treatment := np_mean (to_numpy (map revenue
                                      (with_variant "treatment" (fetchdf db eid))));
                       abs_diff := Fin 0; rel_diff := rd;
                       ci_low := Fin 0; ci_high := Fin 0; p_value := Fin 1 |} ]).
  { destruct (rel_diff_of_total
                (Fin 0)
                (np_mean (to_numpy (map revenue
                                        (with_variant "control" (fetchdf db eid))))))
      as [rd Hrd].
    exists rd. unfold metric_results.
    rewrite !Hz, Hshort
      by (destruct Harm as [E|E];
          [left | right];
          first [ apply (proj1 (Hlen _ E _)) | apply (proj2 (Hlen _ E has_click)) ]).
    repeat (first [ rewrite zero_metric | progress cbn [bind] ]).
    rewrite Hrd. reflexivity. }
  destruct Hres as [rd Hres].
  match type of Hres with
  | _ = Ok ?l =>
      assert (Hrun : run_readout db eid
                     = Ok (sort_values_metric (map format_row l)))
  end.
  { unfold run_readout. destruct (fetchdf db eid); [congruence|].
    rewrite Hres. reflexivity. }
  do 6 eexists.
  split; [exact Hres|]. split; [exact Hrun|].
  split.
  - intros m Hm. cbn [In] in Hm.
    repeat (destruct Hm as [<-|Hm]; [repeat split; reflexivity|]).
    contradiction.
  - intros m Hm. cbn [In] in Hm.
    repeat (destruct Hm as [<-|Hm]; [repeat split; reflexivity|]).
    contradiction.
Qed.

(** X15. Clicks without impressions break the readout: when every
    purchase flag is 0 or 1 and, in both arms, the click count exceeds a
    positive impression count, [run_readout] raises the [ValueError] of
    [math.sqrt] in the ctr test and returns no table. *)
Theorem run_readout_faults_on_excess_clicks (db : list fact_session)
    (eid : string) :
  let df := fetchdf db eid in
  let c := with_variant "control" df in
  let t := with_variant "treatment" df in
  (forall r, In r df -> (0 <= has_purchase r <= 1)%Z) ->
  (0 < col_sum has_impression c < col_sum has_click c)%Z ->
  (0 < col_sum has_impression t < col_sum has_click t)%Z ->
  run_readout db eid = Raise (ValueError "math domain error").
Proof.
  cbv zeta. intros Hp [Ic Xc] [It Xt].
  assert (Hne : fetchdf db eid <> []).
  { intro E. rewrite E in Ic. unfold with_variant, col_sum in Ic.
    simpl in Ic. lia. }
  assert (Hb : forall v,
             (0 <= col_sum has_purchase (with_variant v (fetchdf db eid))
                <= Z.of_nat (length (with_variant v (fetchdf db eid))))%Z).
  { intros v.
    assert (Hv : forall r, In r (with_variant v (fetchdf db eid)) ->
                           (0 <= has_purchase r <= 1)%Z)
      by (intros r Hr; apply Hp; unfold with_variant in Hr;
          apply filter_In in Hr; tauto).
    pose proof (col_sum_bounds (fun _ => 0%Z) has_purchase _
                  (fun r Hr => proj1 (Hv r Hr))) as B0.
    pose proof (col_sum_bounds has_purchase (fun _ => 1%Z) _
                  (fun r Hr => proj2 (Hv r Hr))) as B1.
    rewrite col_sum_const in B0, B1. lia. }
  destruct (ztest_returns_on_valid _ _ _ _ (Hb "control"%string)
                                   (Hb "treatment"%string)) as [r1 E1].
  destruct (proportion_metric_total "purchase_rate_per_session" r1)
    as (m1 & M1 & _).
  assert (Hneg : ProportionSpec.se_ci_radicand
                   (col_sum has_click (with_variant "control" (fetchdf db eid)))
                   (col_sum has_impression (with_variant "control" (fetchdf db eid)))
                   (col_sum has_click (with_variant "treatment" (fetchdf db eid)))
                   (col_sum has_impression (with_variant "treatment" (fetchdf db eid)))
                 < 0).
  { unfold ProportionSpec.se_ci_radicand. cbv zeta.
    pose proof (overcount_term_negative _ _ Ic Xc).
    pose proof (overcount_term_negative _ _ It Xt). lra. }
  unfold run_readout. destruct (fetchdf db eid) as [|s0 rest] eqn:Edf;
    [congruence|].
  unfold metric_results. rewrite E1. cbn [bind]. rewrite M1. cbn [bind].
  rewrite ztest_sqrt_calls by lia.
  rewrite math_sqrt_neg by exact Hneg. reflexivity.
Qed.

End ReadoutEdges.

(** X16. [strip_percent] removes every percent sign and nothing else: the
    result holds none, a string without one is unchanged, and the text of a
    number followed by "%" gives the text of the number back, which is what
    the decision rule parses. *)
Theorem strip_percent_round_trip :
  (forall s, has_percent (GenerateReport.strip_percent s) = false)
  /\ (forall s, has_percent s = false -> GenerateReport.strip_percent s = s)
  /\ (forall a b, GenerateReport.strip_percent (a ++ b)
                  = (GenerateReport.strip_percent a
                     ++ GenerateReport.strip_percent b)%string)
  /\ (forall s, has_percent s = false ->
                GenerateReport.strip_percent (s ++ "%") = s)
  /\ (forall (T : PyText) (x : float64),
         has_percent (format_float ".3f" (x * Fin 100)%fl) = false ->
         GenerateReport.strip_percent
           (GenerateReport.py_str (AbReadout.PyStr (AbReadout.pct x)))
         = format_float ".3f" (x * Fin 100)%fl).
Proof.
  assert (A : forall s, has_percent (GenerateReport.strip_percent s) = false).
  { induction s as [|ch s IH]; [reflexivity|]. simpl.
    destruct (Ascii.eqb ch "%"%char) eqn:E; [exact IH|].
    simpl. rewrite E, IH. reflexivity. }
  assert (B : forall s, has_percent s = false ->
                        GenerateReport.strip_percent s = s).
  { induction s as [|ch s IH]; [reflexivity|]. simpl. intros H.
    apply orb_false_elim in H. destruct H as [E Hs].
    rewrite E, (IH Hs). reflexivity. }
  assert (C : forall a b, GenerateReport.strip_percent (a ++ b)
                          = (GenerateReport.strip_percent a
                             ++ GenerateReport.strip_percent b)%string).
  { induction a as [|ch a IH]; intros b; [reflexivity|]. simpl.
    destruct (Ascii.eqb ch "%"%char); rewrite IH; reflexivity. }
  assert (D : forall s, has_percent s = false ->
                        GenerateReport.strip_percent (s ++ "%") = s).
  { intros s H. rewrite C, (B s H). simpl.
    induction s as [|ch s IH]; [reflexivity|].
    simpl. f_equal. apply IH. simpl in H.
    apply orb_false_elim in H. tauto. }
  repeat split; try assumption.
  intros T x H. cbn [GenerateReport.py_str]. unfold AbReadout.pct.
  apply D. exact H.
Qed.

(* ================================================================== *)
(** * Instances of the further properties                              *)
(* ================================================================== *)

(** The exchange of arms at 100/1000 against 120/1000. *)
Lemma two_proportion_ztest_swap_witness :
  (0 <= 100 <= 1000)%Z /\ (0 <= 120 <= 1000)%Z /\
  forall S : Stats,
    exists p1 p2 d lo hi pv : R,
      AbReadout._two_proportion_ztest 100 1000 120 1000
      = Ok (Fin p1, Fin p2, Fin d, (Fin lo, Fin hi), Fin pv)
      /\ AbReadout._two_proportion_ztest 120 1000 100 1000
         = Ok (Fin p2, Fin p1, Fin (- d), (Fin (- hi), Fin (- lo)), Fin pv).
Proof.
  assert (H1 : (0 <= 100 <= 1000)%Z) by lia.
  assert (H2 : (0 <= 120 <= 1000)%Z) by lia.
  split; [exact H1|]. split; [exact H2|]. intros S.
  exact (two_proportion_ztest_swap 100 1000 120 1000 H1 H2).
Defined.

(** The ranges at 100/1000 against 120/1000. *)
Lemma two_proportion_ztest_ranges_witness :
  (0 <= 100 <= 1000)%Z /\ (0 <= 120 <= 1000)%Z /\
  forall S : Stats,
    exists p1 p2 d lo hi pv : R,
      AbReadout._two_proportion_ztest 100 1000 120 1000
      = Ok (Fin p1, Fin p2, Fin d, (Fin lo, Fin hi), Fin pv)
      /\ 0 <= p1 <= 1 /\ 0 <= p2 <= 1 /\ -1 <= d <= 1.
Proof.
  assert (H1 : (0 <= 100 <= 1000)%Z) by lia.
  assert (H2 : (0 <= 120 <= 1000)%Z) by lia.
  split; [exact H1|]. split; [exact H2|]. intros S.
  destruct (two_proportion_ztest_ranges 100 1000 120 1000 H1 H2)
    as (p1 & p2 & d & lo & hi & pv & E & R1 & R2 & R3 & _).
  exists p1, p2, d, lo, hi, pv. repeat split; (exact E || lra).
Defined.


(** The exchange of samples at [1, 3] and [2, 6]. *)
Lemma welch_swap_witness :
  (2 <= length [1; 3])%nat /\ (2 <= length [2; 6])%nat /\
  forall S : Stats,
    exists (d lo hi : R) (p p' : float64),
      AbReadout._two_sample_ttest (to_numpy [1; 3]) (to_numpy [2; 6])
      = Ok (Fin d, (Fin lo, Fin hi), p)
      /\ AbReadout._two_sample_ttest (to_numpy [2; 6]) (to_numpy [1; 3])
         = Ok (Fin (- d), (Fin (- hi), Fin (- lo)), p').
Proof.
  assert (Ha : (2 <= length [1; 3])%nat) by (simpl; lia).
  assert (Hb : (2 <= length [2; 6])%nat) by (simpl; lia).
  split; [exact Ha|]. split; [exact Hb|]. intros S.
  destruct (welch_swap [1; 3] [2; 6] Ha Hb)
    as (d & lo & hi & p & p' & E1 & E2 & _).
  exists d, lo, hi, p, p'. split; assumption.
Defined.

Lemma sample_users_main_returns (S : Stats) :
  exists r, Cuped.main sample_users = Ok r.
Proof.
  destruct (cuped_theta_cases (map Cuped.y_rev sample_users)
                              (map Cuped.x_pre_rev sample_users))
    as (th & Hth & _); [reflexivity|].
  destruct (variance_reduction_cases
              (map Cuped.y_rev sample_users)
              (adjusted_R th (map Cuped.y_rev sample_users)
                          (map Cuped.x_pre_rev sample_users)))
    as (vr & Hvr & _); [apply adjusted_R_length; reflexivity|].
  rewrite <- cuped_adjusted_to_numpy in Hvr.
  destruct (main_report sample_users th vr Hth Hvr) as (r & Hr & _).
  exists r. exact Hr.
Qed.

(** The effect decomposition on the sample frame of four users. *)
Lemma cuped_effect_decomposition_witness :
  filter (fun u => String.eqb (Cuped.variant u) "control") sample_users <> []
  /\ filter (fun u => String.eqb (Cuped.variant u) "treatment") sample_users <> []
  /\ forall S : Stats,
       exists (r : Cuped.cuped_report) (th : R),
         Cuped.main sample_users = Ok r
         /\ Cuped.theta r = Fin th
         /\ fst (fst (fst (Cuped.cup_stats r)))
            = Fin ((mean_R [30; 4] - mean_R [10; 0])
                   - th * (mean_R [20; 2] - mean_R [8; 2])).
Proof.
  assert (Hc : filter (fun u => String.eqb (Cuped.variant u) "control")
                      sample_users <> []) by discriminate.
  assert (Ht : filter (fun u => String.eqb (Cuped.variant u) "treatment")
                      sample_users <> []) by discriminate.
  split; [exact Hc|]. split; [exact Ht|]. intros S.
  destruct (sample_users_main_returns S) as [r Hr].
  destruct (cuped_effect_decomposition sample_users r Hr Hc Ht)
    as (th & E1 & _ & E3).
  exists r, th. split; [exact Hr|]. split; [exact E1 | exact E3].
Defined.

(** The closed form at 6000 against 4000 with an even split. *)
Lemma srm_chi2_closed_form_witness :
  (0 < 0.5 < 1) /\ (0 < 6000 + 4000)%Z /\
  forall S : Stats,
    SrmGuardrails.chi2 (SrmGuardrails.srm_test 6000 4000 (Fin 0.5))
    = Fin ((4000 - IZR (6000 + 4000) * 0.5) * (4000 - IZR (6000 + 4000) * 0.5)
           / (IZR (6000 + 4000) * 0.5 * (1 - 0.5))).
Proof.
  assert (Hs : 0 < 0.5 < 1) by lra.
  assert (Hn : (0 < 6000 + 4000)%Z) by lia.
  split; [exact Hs|]. split; [exact Hn|]. intros S.
  exact (proj1 (srm_chi2_closed_form 6000 4000 0.5 Hs Hn)).
Defined.

(** A counts frame with a holdout row only. *)
Lemma srm_of_missing_variants_witness :
  (forall r, In r holdout_counts ->
             SrmReport.cr_variant r <> "control"%string
             /\ SrmReport.cr_variant r <> "treatment"%string)
  /\ forall S : Stats,
       SrmGuardrails.chi2 (SrmReport.srm_of_counts holdout_counts (Fin 0.5)) = NaN
       /\ SrmReport.flag_ok (SrmReport.srm_of_counts holdout_counts (Fin 0.5))
          = false.
Proof.
  assert (H : forall r, In r holdout_counts ->
                        SrmReport.cr_variant r <> "control"%string
                        /\ SrmReport.cr_variant r <> "treatment"%string).
  { intros r [<-|[]]. split; discriminate. }
  split; [exact H|]. intros S.
  destruct (srm_of_missing_variants holdout_counts 0.5 H)
    as (_ & _ & E1 & _ & E2).
  split; assumption.
Defined.

(** The readout of the control-only warehouse. *)
Lemma run_readout_with_empty_arm_witness :
  AbReadout.fetchdf control_only_sessions "exp_checkout_v1" <> []
  /\ AbReadout.with_variant
       "treatment" (AbReadout.fetchdf control_only_sessions "exp_checkout_v1") = []
  /\ forall (S : Stats) (T : PyText),
       exists table,
         AbReadout.run_readout control_only_sessions "exp_checkout_v1" = Ok table.
Proof.
  assert (Hne : AbReadout.fetchdf control_only_sessions "exp_checkout_v1" <> [])
    by discriminate.
  assert (Ht : AbReadout.with_variant
                 "treatment"
                 (AbReadout.fetchdf control_only_sessions "exp_checkout_v1") = [])
    by reflexivity.
  split; [exact Hne|]. split; [exact Ht|]. intros S T.
  destruct (run_readout_with_empty_arm control_only_sessions "exp_checkout_v1"
              Hne (or_intror Ht))
    as (m1 & m2 & m3 & m4 & m5 & table & _ & E & _).
  exists table. exact E.
Defined.

Lemma sample_sessions_consistent :
  forall r, In r (AbReadout.fetchdf sample_sessions "exp_checkout_v1") ->
            funnel_consistent r.
Proof.
  intros r Hr.
  change (AbReadout.fetchdf sample_sessions "exp_checkout_v1")
    with (tl sample_sessions) in Hr.
  cbn [tl sample_sessions In] in Hr.
  repeat (destruct Hr as [<-|Hr]; [unfold funnel_consistent; cbn; lia|]).
  contradiction.
Qed.

(** The sample warehouse is funnel-consistent, and its readout returns. *)
Lemma run_readout_returns_on_consistent_funnel_witness :
  AbReadout.fetchdf sample_sessions "exp_checkout_v1" <> []
  /\ forall (S : Stats) (T : PyText),
       exists table,
         AbReadout.run_readout sample_sessions "exp_checkout_v1" = Ok table
         /\ length table = 5%nat.
Proof.
  assert (Hne : AbReadout.fetchdf sample_sessions "exp_checkout_v1" <> [])
    by discriminate.
  split; [exact Hne|]. intros S T.
  exact (run_readout_returns_on_consistent_funnel
           sample_sessions "exp_checkout_v1" Hne sample_sessions_consistent).
Defined.

(** Two clicks over one impression in each arm. *)
Lemma run_readout_faults_on_excess_clicks_witness :
  (0 < 1 < 2)%Z
  /\ forall (S : Stats) (T : PyText),
       AbReadout.run_readout excess_click_sessions "exp_checkout_v1"
       = Raise (ValueError "math domain error").
Proof.
  split; [lia|]. intros S T.
  apply (run_readout_faults_on_excess_clicks
           excess_click_sessions "exp_checkout_v1").
  - intros r Hr.
    change (AbReadout.fetchdf excess_click_sessions "exp_checkout_v1")
      with excess_click_sessions in Hr.
    cbn [excess_click_sessions In] in Hr.
    repeat (destruct Hr as [<-|Hr]; [cbn; lia|]). contradiction.
  - cbn. lia.
  - cbn. lia.
Defined.


(* ================================================================== *)
(** * The order of the readout table                                   *)
(* ================================================================== *)

Section ReadoutOrder.
Context {S : Stats} {T : PyText}.
Import AbReadout.

(** X18. Every table [run_readout] returns lists the same five metrics in
    the same order, that of their names. *)
Theorem run_readout_metric_order (db : list fact_session) (eid : string)
    (table : list display_row) :
  run_readout db eid = Ok table ->
  map d_metric table
  = [ "atc_rate"; "ctr"; "purchase_rate_given_atc";
      "purchase_rate_per_session"; "revenue_per_session" ]%string.
Proof.
  intros H.
  destruct (run_readout_table db eid table H)
    as (_ & m1 & m2 & m3 & m4 & m5 & _ & N1 & N2 & N3 & N4 & N5 & ->).
  cbn [map]. rewrite !format_row_metric, N1, N2, N3, N4, N5. reflexivity.
Qed.

End ReadoutOrder.

(** The order of the sample warehouse's table. *)
Lemma run_readout_metric_order_witness :
  exists (db : list AbReadout.fact_session) (eid : string),
    forall (S : Stats) (T : PyText),
      exists table,
        AbReadout.run_readout db eid = Ok table
        /\ map AbReadout.d_metric table
           = [ "atc_rate"; "ctr"; "purchase_rate_given_atc";
               "purchase_rate_per_session"; "revenue_per_session" ]%string.
Proof.
  exists sample_sessions, "exp_checkout_v1"%string. intros S T.
  destruct (sample_readout_returns S T) as [table H].
  exists table. split; [exact H|].
  exact (run_readout_metric_order sample_sessions "exp_checkout_v1" table H).
Defined.
